(** * Crop advisor conversation core: merge engine, router, guardrails, nodes

    A shallow embedding of [app/models.py] and [app/graph.py] of the
    agentic crop advisor, and the properties of its natural-language
    specification checked against that embedding.

    Python [str] values are lists of characters.  A character is a code
    point below 256 (the Latin-1 range), for which [str.strip], [str.lower]
    and the classes [\d], [\s], [\w], [\b] of the [re] module are given
    exactly as CPython defines them.  Text with other characters is outside
    the model; in particular [str.lower] there can turn one character into
    two (U+0130), so no statement below lets a search of a text stand for a
    search of its lower-cased form: where the program lower-cases before it
    searches, so does the statement.  Fixed user-facing messages that the
    program only stores keep the UTF-8 bytes of the source literal. *)

From Stdlib Require Import List String Ascii Bool Arith NArith ZArith QArith Lia.
Import ListNotations.

Local Open Scope bool_scope.
Local Open Scope list_scope.
Local Close Scope Q_scope.
Local Open Scope nat_scope.
#[local] Set Warnings "-register-all".

(* ------------------------------------------------------------------ *)
(** ** Characters and strings *)

Module Py.

Definition str : Type := list ascii.

Definition py (s : string) : str := list_ascii_of_string s.

Definition cp (c : ascii) : N := N_of_ascii c.

Definition between (lo hi : N) (c : ascii) : bool :=
  (N.leb lo (cp c)) && (N.leb (cp c) hi).

Definition at_cp (n : N) (c : ascii) : bool := N.eqb (cp c) n.

(** [Py_UNICODE_ISSPACE]: used by [str.strip] and by [\s]. *)
Definition isspace (c : ascii) : bool :=
  between 9 13 c || between 28 32 c || at_cp 133 c || at_cp 160 c.

(** [Py_UNICODE_ISDECIMAL]: the class [\d]. *)
Definition isdecimal (c : ascii) : bool := between 48 57 c.

(** [Py_UNICODE_ISALNUM] below 256: letters, decimals, and the Latin-1
    letters and numerics (U+00AA, B2, B3, B5, B9, BA, BC-BE, C0-D6, D8-F6,
    F8-FF). *)
Definition isalnum (c : ascii) : bool :=
  isdecimal c || between 65 90 c || between 97 122 c
  || at_cp 170 c || at_cp 178 c || at_cp 179 c || at_cp 181 c || at_cp 185 c || at_cp 186 c
  || between 188 190 c || between 192 214 c || between 216 246 c
  || between 248 255 c.

(** The class [\w]. *)
Definition isword (c : ascii) : bool := isalnum c || at_cp 95 c.

Definition isupper (c : ascii) : bool :=
  between 65 90 c || between 192 214 c || between 216 222 c.

(** [str.lower] on one character. *)
Definition lower_char (c : ascii) : ascii :=
  if isupper c then ascii_of_N (cp c + 32) else c.

Definition lower (s : str) : str := map lower_char s.

Fixpoint lstrip (s : str) : str :=
  match s with
  | c :: t => if isspace c then lstrip t else s
  | [] => []
  end.

Definition rstrip (s : str) : str := rev (lstrip (rev s)).

Definition strip (s : str) : str := rstrip (lstrip s).

(** Truth value of a string, a list, an optional value. *)
Definition truthy {A} (l : list A) : bool :=
  match l with [] => false | _ => true end.

Definition str_eqb (a b : str) : bool :=
  if list_eq_dec ascii_dec a b then true else false.

(** [sep.join(parts)] *)
Fixpoint join (sep : str) (parts : list str) : str :=
  match parts with
  | [] => []
  | [p] => p
  | p :: rest => p ++ sep ++ join sep rest
  end.

(** [x and x.strip()] as a condition. *)
Definition nonblank (s : str) : bool := truthy s && truthy (strip s).

(** [v and v.strip()] for an [Optional[str]]. *)
Definition given (o : option str) : bool :=
  match o with Some v => nonblank v | None => false end.

End Py.
Import Py.

(* ------------------------------------------------------------------ *)
(** ** The fragment of [re] the guardrails use

    [re.search(pattern, text, flags=re.IGNORECASE)] is only ever used for
    its truth value, so the matcher computes every way a pattern can match
    at a position and [search] asks whether some position has one. *)

Module Re.

Inductive regex : Type :=
| Eps                                  (* empty pattern *)
| Bnd                                  (* \b *)
| Cls (p : ascii -> bool)              (* one character of a class *)
| Seq (r1 r2 : regex)
| Alt (r1 r2 : regex)                  (* r1|r2 *)
| Opt (r : regex)                      (* (r)? *)
| StarC (p : ascii -> bool).           (* class* *)

(** A literal character under [re.IGNORECASE]. *)
Definition chr_i (c : ascii) : ascii -> bool :=
  fun d => N.eqb (cp (lower_char d)) (cp (lower_char c)).

Definition PlusC (p : ascii -> bool) : regex := Seq (Cls p) (StarC p).

Fixpoint lit_chars (s : str) : regex :=
  match s with
  | [] => Eps
  | [c] => Cls (chr_i c)
  | c :: t => Seq (Cls (chr_i c)) (lit_chars t)
  end.

(** A literal word of the pattern. *)
Definition Lit (s : string) : regex := lit_chars (py s).

Fixpoint alts (rs : list regex) : regex :=
  match rs with
  | [] => Eps
  | [r] => r
  | r :: rest => Alt r (alts rest)
  end.

Definition next_is_word (s : str) : bool :=
  match s with c :: _ => isword c | [] => false end.

(** A position in the text: whether the previous character is a word
    character, and what is left to read. *)
Definition pos : Type := (bool * str)%type.

Fixpoint star_run (p : ascii -> bool) (pw : bool) (s : str) : list pos :=
  (pw, s) ::
  match s with
  | c :: t => if p c then star_run p (isword c) t else []
  | [] => []
  end.

Fixpoint run (r : regex) (pw : bool) (s : str) : list pos :=
  match r with
  | Eps => [(pw, s)]
  | Bnd => if xorb pw (next_is_word s) then [(pw, s)] else []
  | Cls p =>
      match s with
      | c :: t => if p c then [(isword c, t)] else []
      | [] => []
      end
  | Seq r1 r2 => flat_map (fun q => run r2 (fst q) (snd q)) (run r1 pw s)
  | Alt r1 r2 => run r1 pw s ++ run r2 pw s
  | Opt r1 => run r1 pw s ++ [(pw, s)]
  | StarC p => star_run p pw s
  end.

Fixpoint search_from (r : regex) (pw : bool) (s : str) : bool :=
  truthy (run r pw s) ||
  match s with
  | c :: t => search_from r (isword c) t
  | [] => false
  end.

(** [bool(re.search(r, s, flags=re.IGNORECASE))] *)
Definition search (r : regex) (s : str) : bool := search_from r false s.

End Re.
Import Re.

(* ------------------------------------------------------------------ *)
(** ** Exceptions *)

Inductive exn : Type :=
| ValidationError      (* pydantic *)
| TypeError            (* aware minus naive datetime *)
| ToolError            (* app.tools *)
| OtherError.          (* anything else an external call raises *)

Inductive res (A : Type) : Type :=
| Ok (a : A)
| Raise (e : exn).
Arguments Ok {A} a.
Arguments Raise {A} e.

Definition bind {A B} (m : res A) (k : A -> res B) : res B :=
  match m with Ok a => k a | Raise e => Raise e end.

Notation "x <- m ;; k" := (bind m (fun x => k))
  (at level 61, m at next level, right associativity).

(* ------------------------------------------------------------------ *)
(** ** [app/models.py] *)

Inductive CropStage : Type :=
| unknown | pre_sowing | sowing | germination | vegetative
| flowering | fruiting | maturity | harvest | post_harvest.

(** The members of the [CropStage] literal, in the order of the source. *)
Definition CropStage_table : list (string * CropStage) :=
  [ ("unknown", unknown); ("pre_sowing", pre_sowing); ("sowing", sowing);
    ("germination", germination); ("vegetative", vegetative);
    ("flowering", flowering); ("fruiting", fruiting);
    ("maturity", maturity); ("harvest", harvest);
    ("post_harvest", post_harvest) ]%string.

(** [Literal["low", "medium", "high"]]: urgency and confidence. *)
Inductive Level : Type := low | medium | high.

Definition Level_table : list (string * Level) :=
  [ ("low", low); ("medium", medium); ("high", high) ]%string.

Fixpoint literal_of {A} (table : list (string * A)) (s : str) : option A :=
  match table with
  | [] => None
  | (name, v) :: rest => if str_eqb s (py name) then Some v else literal_of rest s
  end.

Definition Level_eqb (a b : Level) : bool :=
  match a, b with
  | low, low | medium, medium | high, high => true
  | _, _ => false
  end.

Definition CropStage_eqb (a b : CropStage) : bool :=
  match a, b with
  | unknown, unknown | pre_sowing, pre_sowing | sowing, sowing
  | germination, germination | vegetative, vegetative
  | flowering, flowering | fruiting, fruiting | maturity, maturity
  | harvest, harvest | post_harvest, post_harvest => true
  | _, _ => false
  end.

(** Truth value of an [Optional[float]]: [None] and zero are false. *)
Definition float_truthy (x : option Q) : bool :=
  match x with
  | Some q => negb (Qeq_bool q 0)
  | None => false
  end.

Definition opt_truthy {A} (x : option (list A)) : bool :=
  match x with Some l => truthy l | None => false end.

(** [Field(ge=lo, le=hi)] on an optional float. *)
Definition in_bounds (lo hi : Q) (x : option Q) : bool :=
  match x with
  | Some q => Qle_bool lo q && Qle_bool q hi
  | None => true
  end.

Module FarmerContext.
Record t : Type := mk {
  crop : option str;
  stage : CropStage;
  location_text : option str;
  lat : option Q;
  lon : option Q;
  sowing_date : option str;
  irrigation : option str;
  soil_type : option str;
  notes : option str }.

(** [FarmerContext()] *)
Definition default : t :=
  mk None unknown None None None None None None None.

(** The field constraints checked by [FarmerContext.model_validate]. *)
Definition valid (c : t) : bool :=
  in_bounds (-90 # 1) (90 # 1) (lat c) && in_bounds (-180 # 1) (180 # 1) (lon c).

(** [FarmerContext.model_validate(data)] on a dump of typed fields. *)
Definition model_validate (c : t) : res t :=
  if valid c then Ok c else Raise ValidationError.

(** [c.model_copy(update={"lat": la, "lon": lo})]: no validation. *)
Definition with_lat_lon (c : t) (la lo : option Q) : t :=
  mk (crop c) (stage c) (location_text c) la lo
     (sowing_date c) (irrigation c) (soil_type c) (notes c).

(** [c.model_copy(update={"location_text": v})] *)
Definition with_location_text (c : t) (v : option str) : t :=
  mk (crop c) (stage c) v (lat c) (lon c)
     (sowing_date c) (irrigation c) (soil_type c) (notes c).
End FarmerContext.

Module Observation.
Record t : Type := mk {
  symptoms : list str;
  pests_seen : list str;
  images_hint : option str;
  urgency : Level }.

Definition default : t := mk [] [] None low.
End Observation.

(** [dict[str, Any]] entries of the forecast subsets. *)
Inductive json : Type :=
| JNull
| JBool (b : bool)
| JNum (q : Q)
| JStr (s : str)
| JArr (items : list json)
| JObj (fields : list (str * json)).

Module WeatherSnapshot.
Record t : Type := mk {
  fetched_at_utc : str;
  summary : str;
  alerts : list str;
  daily : list json;
  hourly : list json }.
End WeatherSnapshot.

Module WebContext.
Record t : Type := mk {
  fetched_at_utc : str;
  query : str;
  snippets : list str;
  urls : list str }.
End WebContext.

Module Advisory.
Record t : Type := mk {
  headline : str;
  stage : CropStage;
  actions_now : list str;
  watch_out_for : list str;
  next_questions : list str;
  rationale_brief : str;
  confidence : Level;
  safety_notes : list str;
  needs_human_review : bool }.

(** The object handed to [Advisory.model_validate]: a key may be missing,
    and the two literal fields arrive as strings. *)
Record raw : Type := mk_raw {
  r_headline : option str;
  r_stage : option str;
  r_actions_now : option (list str);
  r_watch_out_for : option (list str);
  r_next_questions : option (list str);
  r_rationale_brief : option str;
  r_confidence : option str;
  r_safety_notes : option (list str);
  r_needs_human_review : option bool }.

(** [[x.strip() for x in v if x and x.strip()]] *)
Definition clean (v : list str) : list str :=
  map strip (filter nonblank v).

Definition _limit_actions (v : list str) : list str := firstn 7 (clean v).
Definition _limit_watch (v : list str) : list str := firstn 5 (clean v).
Definition _limit_questions (v : list str) : list str := firstn 3 (clean v).

Definition or_default {A} (o : option A) (d : A) : A :=
  match o with Some a => a | None => d end.

(** A [Literal] field: the default when the key is missing, an error when
    the string is not one of the members. *)
Definition literal_field {A} (table : list (string * A)) (o : option str) (d : A)
  : res A :=
  match o with
  | None => Ok d
  | Some s => match literal_of table s with
              | Some v => Ok v
              | None => Raise ValidationError
              end
  end.

(** [Advisory.model_validate(data)] *)
Definition model_validate (d : raw) : res t :=
  match r_headline d with
  | None => Raise ValidationError
  | Some h =>
      if negb ((3 <=? List.length h) && (List.length h <=? 120)) then Raise ValidationError
      else
        st <- literal_field CropStage_table (r_stage d) unknown ;;
        let rationale := or_default (r_rationale_brief d) [] in
        if negb (List.length rationale <=? 600) then Raise ValidationError
        else
          cf <- literal_field Level_table (r_confidence d) medium ;;
          Ok (mk h st
                 (_limit_actions (or_default (r_actions_now d) []))
                 (_limit_watch (or_default (r_watch_out_for d) []))
                 (_limit_questions (or_default (r_next_questions d) []))
                 rationale cf
                 (or_default (r_safety_notes d) [])
                 (or_default (r_needs_human_review d) false))
  end.

(** [adv.model_copy(update={...})] of [_sanitize_advisory]: no validation. *)
Definition with_sanitized (a : t) (acts notes : list str) (review : bool)
  (conf : Level) : t :=
  mk (headline a) (stage a) acts (watch_out_for a) (next_questions a)
     (rationale_brief a) conf notes review.
End Advisory.

(** [safe_parse_advisory(data)] for a decoded model reply. *)
Definition safe_parse_advisory (d : Advisory.raw) : res Advisory.t :=
  Advisory.model_validate d.

Module GuardrailResult.
Record t : Type := mk {
  ok : bool;
  reasons : list str;
  needs_human_review : bool }.
End GuardrailResult.

Record message : Type := mk_message { role : str; content : str }.

Module GraphState.
Record t : Type := mk {
  chat_id : str;
  messages : list message;
  context : FarmerContext.t;
  observation : Observation.t;
  weather : option WeatherSnapshot.t;
  web : option WebContext.t;
  advisory : option Advisory.t;
  last_node : option str;
  turn_count : Z }.

(** [GraphState(chat_id=...)] *)
Definition fresh (id : str) : t :=
  mk id [] FarmerContext.default Observation.default None None None None 0%Z.

Definition with_messages (s : t) (m : list message) : t :=
  mk (chat_id s) m (context s) (observation s) (weather s) (web s)
     (advisory s) (last_node s) (turn_count s).

Definition with_context (s : t) (c : FarmerContext.t) : t :=
  mk (chat_id s) (messages s) c (observation s) (weather s) (web s)
     (advisory s) (last_node s) (turn_count s).

Definition with_last_node (s : t) (n : option str) : t :=
  mk (chat_id s) (messages s) (context s) (observation s) (weather s) (web s)
     (advisory s) n (turn_count s).

Definition with_turn_count (s : t) (n : Z) : t :=
  mk (chat_id s) (messages s) (context s) (observation s) (weather s) (web s)
     (advisory s) (last_node s) n.

Definition add_user (s : t) (text : str) : t :=
  with_messages s (messages s ++ [mk_message (py "user") text]).

Definition add_assistant (s : t) (text : str) : t :=
  with_messages s (messages s ++ [mk_message (py "assistant") text]).

(** [self.messages[-max_messages:]] when the list is longer. *)
Definition compact_messages_to (max_messages : nat) (s : t) : t :=
  if max_messages <? List.length (messages s)
  then with_messages s (skipn (List.length (messages s) - max_messages) (messages s))
  else s.

Definition compact_messages (s : t) : t := compact_messages_to 16 s.
End GraphState.

(* ------------------------------------------------------------------ *)
(** ** [app/graph.py]: schemas and helpers *)

Module IntakeExtraction.
Record t : Type := mk {
  crop : option str;
  stage : option str;
  location_text : option str;
  sowing_date : option str;
  irrigation : option str;
  soil_type : option str;
  notes : option str;
  symptoms : list str;
  pests_seen : list str;
  urgency : option str }.

(** [IntakeExtraction()] *)
Definition default : t := mk None None None None None None None [] [] None.
End IntakeExtraction.

(** A [datetime]: microseconds since the epoch, with or without an offset. *)
Inductive datetime : Type :=
| Aware (us : Z)
| Naive (us : Z).

(** [(now - dt) > timedelta(hours=h)], where [now] is the aware reading of
    [_utc_now()]; Python refuses to subtract a naive value from it. *)
Definition older_than (now : Z) (dt : datetime) (hours : Z) : res bool :=
  match dt with
  | Aware t => Ok (hours * 3600 * 1000000 <? now - t)%Z
  | Naive _ => Raise TypeError
  end.

Section Freshness.

(** [datetime.fromisoformat], [None] when it raises. *)
Variable fromisoformat : str -> option datetime.

Definition _parse_iso_dt (s : str) : option datetime := fromisoformat s.

Definition stale_at (now max_age_hours : Z) (fetched_at_utc : option str) : res bool :=
  match fetched_at_utc with
  | None => Ok true
  | Some ts =>
      match _parse_iso_dt ts with
      | None => Ok true
      | Some dt => older_than now dt max_age_hours
      end
  end.

Definition _is_weather_stale (now : Z) (state : GraphState.t) : res bool :=
  stale_at now 6 (option_map WeatherSnapshot.fetched_at_utc (GraphState.weather state)).

Definition _is_web_stale (now : Z) (state : GraphState.t) : res bool :=
  stale_at now 24 (option_map WebContext.fetched_at_utc (GraphState.web state)).

(** *** Router *)

Inductive Step : Type := ASK | WEATHER | WEB | ADVICE.

(** The string [_route] returns for each step. *)
Definition Step_name (s : Step) : str :=
  match s with
  | ASK => py "ask" | WEATHER => py "weather"
  | WEB => py "web" | ADVICE => py "advice"
  end.

(** [_route(state)]; [now_weather] and [now_web] are the clock readings of
    the two freshness checks. *)
Definition _route (now_weather now_web : Z) (state : GraphState.t) : res Step :=
  let c := GraphState.context state in
  let coords := float_truthy (FarmerContext.lat c) && float_truthy (FarmerContext.lon c) in
  if negb coords && negb (given (FarmerContext.location_text c)) then Ok ASK
  else if negb (given (FarmerContext.crop c)) then Ok ASK
  else if CropStage_eqb (FarmerContext.stage c) unknown then Ok ASK
  else
    go_weather <- (if coords then _is_weather_stale now_weather state else Ok false) ;;
    if go_weather then Ok WEATHER
    else
      go_web <- (if truthy (Observation.symptoms (GraphState.observation state))
                 then _is_web_stale now_web state else Ok false) ;;
      if go_web then Ok WEB else Ok ADVICE.

End Freshness.

(** *** Merge engine *)

(** [if u and u.strip(): data[k] = f(u)] *)
Definition overwrite {A} (f : str -> A) (u : option str) (old : A) : A :=
  match u with
  | Some v => if nonblank v then f v else old
  | None => old
  end.

(** [stage if stage in allowed else "unknown"], read back as a [CropStage]. *)
Definition allowed_stage (stage : str) : CropStage :=
  match literal_of CropStage_table stage with
  | Some st => st
  | None => unknown
  end.

Definition _merge_context (old : FarmerContext.t) (upd : IntakeExtraction.t)
  : res FarmerContext.t :=
  FarmerContext.model_validate
    (FarmerContext.mk
       (overwrite (fun v => Some (lower (strip v)))
          (IntakeExtraction.crop upd) (FarmerContext.crop old))
       (overwrite (fun v => allowed_stage (lower (strip v)))
          (IntakeExtraction.stage upd) (FarmerContext.stage old))
       (overwrite (fun v => Some (strip v))
          (IntakeExtraction.location_text upd) (FarmerContext.location_text old))
       (FarmerContext.lat old)
       (FarmerContext.lon old)
       (overwrite (fun v => Some (strip v))
          (IntakeExtraction.sowing_date upd) (FarmerContext.sowing_date old))
       (overwrite (fun v => Some (strip v))
          (IntakeExtraction.irrigation upd) (FarmerContext.irrigation old))
       (overwrite (fun v => Some (strip v))
          (IntakeExtraction.soil_type upd) (FarmerContext.soil_type old))
       (overwrite (fun v => Some (strip v))
          (IntakeExtraction.notes upd) (FarmerContext.notes old))).

(** One of the two loops of [_merge_observation]: append the stripped
    entries not yet present, compared in lower case. *)
Fixpoint merge_unique (seen : list str) (new : list str) : list str :=
  match new with
  | [] => seen
  | s :: rest =>
      let s := strip s in
      if truthy s && negb (existsb (str_eqb (lower s)) (map lower seen))
      then merge_unique (seen ++ [s]) rest
      else merge_unique seen rest
  end.

(** [order = {"low": 0, "medium": 1, "high": 2}] *)
Definition order (l : Level) : nat :=
  match l with low => 0 | medium => 1 | high => 2 end.

Definition merge_urgency (old : Level) (upd : option str) : Level :=
  match upd with
  | Some raw =>
      if truthy raw then
        let u := lower (strip raw) in
        match literal_of Level_table u with
        | Some u => if order old <? order u then u else old
        | None => old
        end
      else old
  | None => old
  end.

Definition _merge_observation (old : Observation.t) (upd : IntakeExtraction.t)
  : Observation.t :=
  Observation.mk
    (merge_unique (Observation.symptoms old) (IntakeExtraction.symptoms upd))
    (merge_unique (Observation.pests_seen old) (IntakeExtraction.pests_seen upd))
    None
    (merge_urgency (Observation.urgency old) (IntakeExtraction.urgency upd)).

(** *** Guardrail engine *)

Fixpoint seqs (rs : list regex) : regex :=
  match rs with
  | [] => Eps
  | [r] => r
  | r :: rest => Seq r (seqs rest)
  end.

(** [\b\d+(\.\d+)?\s*(ml|mL|l|L|g|gm|kg)\b] *)
Definition re_quantity : regex :=
  seqs [ Bnd; PlusC isdecimal; Opt (seqs [Lit "."; PlusC isdecimal]);
         StarC isspace;
         alts [Lit "ml"; Lit "mL"; Lit "l"; Lit "L"; Lit "g"; Lit "gm"; Lit "kg"];
         Bnd ].

(** [\b(per|/)\s*(l|L|liter|litre|kg)\b] *)
Definition re_per_unit : regex :=
  seqs [ Bnd; alts [Lit "per"; Lit "/"]; StarC isspace;
         alts [Lit "l"; Lit "L"; Lit "liter"; Lit "litre"; Lit "kg"]; Bnd ].

(** [\bmix\b], [\bdose\b], [\bppm\b] *)
Definition re_mix : regex := seqs [Bnd; Lit "mix"; Bnd].
Definition re_dose : regex := seqs [Bnd; Lit "dose"; Bnd].
Definition re_ppm : regex := seqs [Bnd; Lit "ppm"; Bnd].

Definition risky_patterns : list regex :=
  [re_quantity; re_per_unit; re_mix; re_dose; re_ppm].

Definition reason_dosage : str :=
  py "Contains potentially unsafe dosage/mixing-style details.".
Definition reason_urgency : str :=
  py "High urgency reported; recommend expert verification.".
Definition reason_alerts : str :=
  py "Weather alerts present; recommend extra caution.".

(** [" ".join([headline] + actions_now + watch_out_for)] *)
Definition combined_text (advisory : Advisory.t) : str :=
  join (py " ")
    ([Advisory.headline advisory] ++ Advisory.actions_now advisory
       ++ Advisory.watch_out_for advisory).

(** [state.weather and state.weather.alerts] as a condition. *)
Definition has_alerts (state : GraphState.t) : bool :=
  match GraphState.weather state with
  | Some w => truthy (WeatherSnapshot.alerts w)
  | None => false
  end.

(** [_guardrails(advisory, state)]; the pair threaded through the three
    checks is [(reasons, needs_human)]. *)
Definition _guardrails (advisory : Advisory.t) (state : GraphState.t)
  : GuardrailResult.t :=
  let joined := lower (combined_text advisory) in
  let '(reasons, needs_human) :=
    if existsb (fun pat => search pat joined) risky_patterns
    then ([reason_dosage], true) else ([], false) in
  let '(reasons, needs_human) :=
    if Level_eqb (Observation.urgency (GraphState.observation state)) high
    then (reasons ++ [reason_urgency], true) else (reasons, needs_human) in
  let '(reasons, needs_human) :=
    if has_alerts state
    then (reasons ++ [reason_alerts], true) else (reasons, needs_human) in
  GuardrailResult.mk (negb needs_human) reasons needs_human.

(** [\bmix\b|\bdose\b|\bppm\b] *)
Definition re_words : regex := alts [re_mix; re_dose; re_ppm].

Definition is_risky_line (line : str) : bool :=
  if negb (truthy line) then false
  else search re_quantity line || search re_words line.

Definition fallback_action : str :=
  py "Consult a local agriculture officer/extension worker for treatment options.".
Definition disclaimer : str :=
  py "Avoid chemical dosage/mixing without local expert guidance.".

(** The list [safe_actions] of [_sanitize_advisory], before it is cut. *)
Definition safe_actions_of (actions_now : list str) : list str :=
  let safe_actions := filter (fun a => negb (is_risky_line a)) actions_now in
  if List.length safe_actions =? 0 then [fallback_action] else safe_actions.

Definition _sanitize_advisory (advisory : Advisory.t) (guard : GuardrailResult.t)
  : Advisory.t :=
  if negb (GuardrailResult.needs_human_review guard) then advisory
  else
    let safe_actions := safe_actions_of (Advisory.actions_now advisory) in
    let safety_notes :=
      (Advisory.safety_notes advisory ++ [disclaimer])
        ++ firstn 2 (GuardrailResult.reasons guard) in
    Advisory.with_sanitized advisory
      (firstn 7 safe_actions) (firstn 6 safety_notes) true
      (if negb (Level_eqb (Advisory.confidence advisory) low) then low else low).

(* ------------------------------------------------------------------ *)
(** ** [app/graph.py]: the nodes

    A node returns a dictionary of the state keys it sets; the graph
    runtime writes exactly those keys into the state. *)

Module NodeOut.
Record t : Type := mk {
  messages : option (list message);
  context : option FarmerContext.t;
  observation : option Observation.t;
  weather : option (option WeatherSnapshot.t);
  web : option (option WebContext.t);
  advisory : option (option Advisory.t);
  last_node : option (option str) }.
End NodeOut.

Definition apply_out (s : GraphState.t) (o : NodeOut.t) : GraphState.t :=
  GraphState.mk
    (GraphState.chat_id s)
    (Advisory.or_default (NodeOut.messages o) (GraphState.messages s))
    (Advisory.or_default (NodeOut.context o) (GraphState.context s))
    (Advisory.or_default (NodeOut.observation o) (GraphState.observation s))
    (Advisory.or_default (NodeOut.weather o) (GraphState.weather s))
    (Advisory.or_default (NodeOut.web o) (GraphState.web s))
    (Advisory.or_default (NodeOut.advisory o) (GraphState.advisory s))
    (Advisory.or_default (NodeOut.last_node o) (GraphState.last_node s))
    (GraphState.turn_count s).

Definition nl : str := ["010"%char].

Definition ask_location : str :=
  py "To guide you accurately, share your location:" ++ nl
  ++ py "• Village/City + District/State, OR" ++ nl
  ++ py "• Coordinates like: 19.07,72.87".
Definition ask_crop : str :=
  py "Which crop are you growing? (e.g., cotton, wheat, tomato)".
Definition ask_stage : str :=
  py "Which crop stage are you in?" ++ nl
  ++ py "Options: sowing, germination, vegetative, flowering, fruiting, maturity, harvest".
Definition ask_symptoms : str :=
  py "Can you share 1–2 clear symptoms and how many days you’ve noticed them? (Also mention irrigation frequency.)".
Definition ask_changes : str :=
  py "Share any recent changes (rain/irrigation/fertilizer) and I’ll update your next actions.".

Definition _ask_message_for_missing (state : GraphState.t) : str :=
  let c := GraphState.context state in
  if (negb (float_truthy (FarmerContext.lat c)) || negb (float_truthy (FarmerContext.lon c)))
     && negb (given (FarmerContext.location_text c))
  then ask_location
  else if negb (given (FarmerContext.crop c)) then ask_crop
  else if CropStage_eqb (FarmerContext.stage c) unknown then ask_stage
  else if truthy (Observation.symptoms (GraphState.observation state))
          && negb (match GraphState.web state with Some _ => true | None => false end)
  then ask_symptoms
  else ask_changes.

(** The statements of [run_turn] before the graph is invoked. *)
Definition run_turn_enter (state : GraphState.t) (user_text : str) : GraphState.t :=
  let s := GraphState.add_user state user_text in
  let s := GraphState.with_turn_count s (GraphState.turn_count s + 1)%Z in
  GraphState.compact_messages s.

Definition ask_node (state : GraphState.t) : NodeOut.t :=
  let s := GraphState.with_last_node state (Some (py "ask")) in
  let msg := _ask_message_for_missing s in
  let s := GraphState.add_assistant s msg in
  let s := GraphState.compact_messages s in
  NodeOut.mk (Some (GraphState.messages s)) None None None None
    (Some None) (Some (GraphState.last_node s)).

(** [except ToolError]: the handler runs for a [ToolError], any other
    exception leaves the node. *)
Definition catch_ToolError {A} (m : res A) (handler : res A) : res A :=
  match m with
  | Raise ToolError => handler
  | _ => m
  end.

Section Tools.

(** [tools.geocode(place)] and [tools.weather(lat, lon)], each a typed result
    or an exception. *)
Variable geocode : str -> res (option Q * option Q * option str).
Variable weather : Q -> Q -> res WeatherSnapshot.t.

Definition coords_truthy (c : FarmerContext.t) : bool :=
  float_truthy (FarmerContext.lat c) && float_truthy (FarmerContext.lon c).

(** The geocoding step of [weather_node]: the context it leaves in [s]. *)
Definition weather_node_geocode (s : GraphState.t) : res GraphState.t :=
  let c := GraphState.context s in
  if negb (coords_truthy c) && opt_truthy (FarmerContext.location_text c) then
    catch_ToolError
      (r <- geocode (Advisory.or_default (FarmerContext.location_text c) []) ;;
       let '(lat, lon, resolved) := r in
       match lat, lon with
       | Some _, Some _ =>
           let s := GraphState.with_context s
                      (FarmerContext.with_lat_lon (GraphState.context s) lat lon) in
           if opt_truthy resolved
              && negb (opt_truthy (FarmerContext.location_text (GraphState.context s)))
           then Ok (GraphState.with_context s
                      (FarmerContext.with_location_text (GraphState.context s) resolved))
           else Ok s
       | _, _ => Ok s
       end)
      (Ok s)
  else Ok s.

Definition weather_node (state : GraphState.t) : res NodeOut.t :=
  let s := GraphState.with_last_node state (Some (py "weather")) in
  s <- weather_node_geocode s ;;
  let c := GraphState.context s in
  if negb (coords_truthy c) then
    Ok (NodeOut.mk None (Some c) None (Some None) None None
          (Some (GraphState.last_node s)))
  else
    match FarmerContext.lat c, FarmerContext.lon c with
    | Some la, Some lo =>
        catch_ToolError
          (snap <- weather la lo ;;
           Ok (NodeOut.mk None (Some c) None (Some (Some snap)) None None
                 (Some (GraphState.last_node s))))
          (Ok (NodeOut.mk None (Some c) None (Some (GraphState.weather s)) None None
                 (Some (GraphState.last_node s))))
    | _, _ => Raise TypeError
    end.

End Tools.

Definition advice_fallback : str :=
  py "I couldn’t generate a reliable plan from the current details." ++ nl
  ++ py "Please share crop + stage + location (village/district) and 1–2 symptoms.".

(** The text [advice_node] adds to the history for a sanitized advisory. *)
Definition summary_text (adv2 : Advisory.t) : str :=
  let line (label : string) (n : nat) (items : list str) : list str :=
    if truthy items then [py label ++ join (py "; ") (firstn n items)] else [] in
  join nl
    ([Advisory.headline adv2]
       ++ line "Actions: "%string 4 (Advisory.actions_now adv2)
       ++ line "Watch: "%string 3 (Advisory.watch_out_for adv2)
       ++ line "Next: "%string 2 (Advisory.next_questions adv2)
       ++ (if Advisory.needs_human_review adv2
           then [py "Note: Recommend local expert review."] else [])).

(** [advice_node(state)]; [reply] is what [_llm_json] returned for the
    prompt, or the exception it raised. *)
Definition advice_node (reply : res Advisory.raw) (state : GraphState.t) : NodeOut.t :=
  let s := GraphState.with_last_node state (Some (py "advice")) in
  match (data <- reply ;; safe_parse_advisory data) with
  | Raise _ =>
      let s := GraphState.add_assistant s advice_fallback in
      NodeOut.mk (Some (GraphState.messages s)) None None None None
        (Some None) (Some (GraphState.last_node s))
  | Ok adv =>
      let guard := _guardrails adv s in
      let adv2 := _sanitize_advisory adv guard in
      let s := GraphState.add_assistant s (summary_text adv2) in
      let s := GraphState.compact_messages s in
      NodeOut.mk (Some (GraphState.messages s)) None None None None
        (Some (Some adv2)) (Some (GraphState.last_node s))
  end.

(* ------------------------------------------------------------------ *)
(** ** Vocabulary of the specification, and sample inputs *)







Definition matches_any (ps : list regex) (s : str) : bool :=
  existsb (fun pat => search pat s) ps.

Definition benign_advisory : Advisory.t :=
  Advisory.mk (py "Keep the field drained") vegetative
    [py "Remove infected leaves"; py "Scout the field every morning"]
    [py "Standing water after rain"] [] (py "Wet soil favours leaf spot.")
    medium [] false.

Definition urgent_state : GraphState.t :=
  let s := GraphState.fresh (py "42") in
  GraphState.mk (GraphState.chat_id s) (GraphState.messages s)
    (GraphState.context s) (Observation.mk [py "wilting"] [] None high)
    None None None None 1%Z.

(** An advisory with a per-unit instruction and no quantity. *)
Definition per_litre_line : str := py "Spray per litre of water".

Definition per_litre_advisory : Advisory.t :=
  Advisory.mk (py "Leaf spot control") vegetative
    [py "Remove infected leaves"; per_litre_line]
    [py "Spots spreading to new leaves"] [] (py "Early leaf spot.")
    medium [] false.

(** The advisory of the specification's guardrail example. *)
Definition dosage_advisory : Advisory.t :=
  Advisory.mk (py "Leaf spot control") vegetative
    [py "Remove infected leaves"; py "Apply 2.5 ml per litre"]
    [py "Spots spreading to new leaves"] [] (py "Early leaf spot.")
    medium [] false.

(** The ordering low < medium < high, and its maximum. *)
Definition Level_le (a b : Level) : Prop := order a <= order b.

Definition Level_max (a b : Level) : Level :=
  match a, b with
  | high, _ | _, high => high
  | medium, _ | _, medium => medium
  | low, low => low
  end.

(** The valid urgency value an update supplies, if it supplies one. *)
Definition supplied_urgency (upd : IntakeExtraction.t) : option Level :=
  match IntakeExtraction.urgency upd with
  | Some raw => literal_of Level_table (lower (strip raw))
  | None => None
  end.

(** A blank string: empty, or white space only. *)
Definition blank (s : str) : bool := forallb isspace s.

Definition absent_or_blank (u : option str) : Prop :=
  match u with Some v => blank v = true | None => True end.

(** How one field of a merged record relates to the old record and the
    update: written with [f v] when the update has a non-blank [v], left
    alone when the update has nothing or a blank. *)
Definition merged {A} (f : str -> A) (u : option str) (old new : A) : Prop :=
  (forall v, u = Some v -> blank v = false -> new = f v)
  /\ (absent_or_blank u -> new = old).

(** A field that held a value still holds one. *)
Definition kept {A} (old new : option A) : Prop := old <> None -> new <> None.

Definition merge_context_spec (old : FarmerContext.t) (upd : IntakeExtraction.t)
  (new : FarmerContext.t) : Prop :=
  merged (fun v => Some (lower (strip v)))
    (IntakeExtraction.crop upd) (FarmerContext.crop old) (FarmerContext.crop new)
  /\ merged (fun v => allowed_stage (lower (strip v)))
       (IntakeExtraction.stage upd) (FarmerContext.stage old) (FarmerContext.stage new)
  /\ merged (fun v => Some (strip v)) (IntakeExtraction.location_text upd)
       (FarmerContext.location_text old) (FarmerContext.location_text new)
  /\ merged (fun v => Some (strip v)) (IntakeExtraction.sowing_date upd)
       (FarmerContext.sowing_date old) (FarmerContext.sowing_date new)
  /\ merged (fun v => Some (strip v)) (IntakeExtraction.irrigation upd)
       (FarmerContext.irrigation old) (FarmerContext.irrigation new)
  /\ merged (fun v => Some (strip v)) (IntakeExtraction.soil_type upd)
       (FarmerContext.soil_type old) (FarmerContext.soil_type new)
  /\ merged (fun v => Some (strip v)) (IntakeExtraction.notes upd)
       (FarmerContext.notes old) (FarmerContext.notes new)
  /\ FarmerContext.lat new = FarmerContext.lat old
  /\ FarmerContext.lon new = FarmerContext.lon old
  /\ kept (FarmerContext.crop old) (FarmerContext.crop new)
  /\ kept (FarmerContext.location_text old) (FarmerContext.location_text new)
  /\ kept (FarmerContext.sowing_date old) (FarmerContext.sowing_date new)
  /\ kept (FarmerContext.irrigation old) (FarmerContext.irrigation new)
  /\ kept (FarmerContext.soil_type old) (FarmerContext.soil_type new)
  /\ kept (FarmerContext.notes old) (FarmerContext.notes new).

Definition nagpur_context : FarmerContext.t :=
  FarmerContext.mk (Some (py "cotton")) flowering (Some (py "Nagpur"))
    (Some (2115 # 100)%Q) (Some (7909 # 100)%Q) None (Some (py "flood")) None None.

Definition partial_update : IntakeExtraction.t :=
  IntakeExtraction.mk (Some (py "  Wheat ")) None (Some (py "   ")) None
    (Some (py "drip")) None None [] [] (Some (py " LOW ")).

Definition high_observation : Observation.t :=
  Observation.mk [py "wilting"] [] None high.

(** Every entry of [out] is the stripped form of a non-blank entry of [src]. *)
Definition cleaned_from (src out : list str) : Prop :=
  forall x, In x out ->
    blank x = false /\ exists y, In y src /\ blank y = false /\ x = strip y.

(** The bounds a validated advisory meets, against the object it was
    validated from. *)
Definition advisory_bounds (d : Advisory.raw) (a : Advisory.t) : Prop :=
  List.length (Advisory.actions_now a) <= 7
  /\ List.length (Advisory.watch_out_for a) <= 5
  /\ List.length (Advisory.next_questions a) <= 3
  /\ cleaned_from (Advisory.or_default (Advisory.r_actions_now d) [])
       (Advisory.actions_now a)
  /\ cleaned_from (Advisory.or_default (Advisory.r_watch_out_for d) [])
       (Advisory.watch_out_for a)
  /\ cleaned_from (Advisory.or_default (Advisory.r_next_questions d) [])
       (Advisory.next_questions a)
  /\ 3 <= List.length (Advisory.headline a) <= 120
  /\ List.length (Advisory.rationale_brief a) <= 600
  /\ Advisory.safety_notes a = Advisory.or_default (Advisory.r_safety_notes d) [].

(** A model reply with seven safety notes, one of them blank. *)
Definition seven_notes_reply : Advisory.raw :=
  Advisory.mk_raw (Some (py "Leaf spot control")) (Some (py "vegetative"))
    (Some [py " Remove infected leaves "; py "   "; py "Scout the field"])
    (Some [py "Spots spreading"]) None (Some (py "Early leaf spot."))
    (Some (py "medium"))
    (Some [py "Wear gloves"; py "Wash hands"; py " "; py "Keep children away";
           py "Store tools dry"; py "Burn removed leaves"; py "Ask an expert"])
    None.

(** Wheat in the vegetative stage on the equator, nothing fetched yet. *)
Definition equator_context (place : option str) : FarmerContext.t :=
  FarmerContext.mk (Some (py "wheat")) vegetative place
    (Some (0 # 1)%Q) (Some (7287 # 100)%Q) None None None None.

Definition state_of_context (c : FarmerContext.t) : GraphState.t :=
  GraphState.with_context (GraphState.fresh (py "42")) c.

Definition equator_state : GraphState.t :=
  state_of_context (equator_context None).

Definition equator_state_with_place : GraphState.t :=
  state_of_context (equator_context (Some (py "Pontianak"))).

(** The router example of the specification: coordinates 19.07, 72.87. *)
Definition mumbai_state (w : option WeatherSnapshot.t) : GraphState.t :=
  let s := state_of_context
             (FarmerContext.mk (Some (py "wheat")) vegetative None
                (Some (1907 # 100)%Q) (Some (7287 # 100)%Q) None None None None) in
  GraphState.mk (GraphState.chat_id s) (GraphState.messages s) (GraphState.context s)
    (GraphState.observation s) w None None None 0%Z.

(** A place name without coordinates, and a snapshot from an earlier fetch. *)
Definition old_snapshot : WeatherSnapshot.t :=
  WeatherSnapshot.mk (py "2026-01-31T12:00:00+00:00") (py "Clouds: overcast | Temp 24.0")
    [] [] [].


Definition geocode_down : str -> res (option Q * option Q * option str) :=
  fun _ => Raise ToolError.


(** A session whose history already holds sixteen messages. *)
Definition long_history : GraphState.t :=
  GraphState.with_messages (state_of_context (equator_context (Some (py "Pontianak"))))
    (repeat (mk_message (py "user") (py "any news?")) 16).

Definition llm_down : res Advisory.raw := Raise OtherError.

(* ------------------------------------------------------------------ *)
(** ** [app/graph.py]: the remaining helpers and nodes *)

(** [_first_nonempty] over its arguments, in order. *)
Fixpoint _first_nonempty (vals : list (option str)) : option str :=
  match vals with
  | [] => None
  | v :: rest =>
      if given v then Some (strip (Advisory.or_default v []))
      else _first_nonempty rest
  end.

Definition chr_eqb (a b : ascii) : bool := N.eqb (cp a) (cp b).

(** [text.startswith(c)] and [text.endswith(c)] for a one-character [c]. *)
Definition startswith_chr (c : ascii) (text : str) : bool :=
  match text with d :: _ => chr_eqb d c | [] => false end.

Definition endswith_chr (c : ascii) (text : str) : bool :=
  startswith_chr c (rev text).

(** The part of [text] from the first [c] on. *)
Fixpoint from_first (c : ascii) (text : str) : option str :=
  match text with
  | [] => None
  | d :: t => if chr_eqb d c then Some text else from_first c t
  end.

(** The part of [text] up to and including the last [c]. *)
Definition upto_last (c : ascii) (text : str) : option str :=
  option_map (@rev ascii) (from_first c (rev text)).

(** [_JSON_OBJ_RE.search(text)] for the pattern [\{.*\}] with [re.DOTALL]:
    the match starts at the first opening brace that has a closing brace
    after it, and the greedy [.*] runs to the last closing brace. *)
Definition search_json_obj (text : str) : option str :=
  match from_first "{" text with
  | Some s => upto_last "}" s
  | None => None
  end.

Definition _extract_json_object (text : str) : option str :=
  if negb (truthy text) then None
  else
    let text := strip text in
    if startswith_chr "{" text && endswith_chr "}" text then Some text
    else search_json_obj text.

(** The string of a [CropStage] member. *)
Definition CropStage_name (st : CropStage) : str :=
  match st with
  | unknown => py "unknown" | pre_sowing => py "pre_sowing"
  | sowing => py "sowing" | germination => py "germination"
  | vegetative => py "vegetative" | flowering => py "flowering"
  | fruiting => py "fruiting" | maturity => py "maturity"
  | harvest => py "harvest" | post_harvest => py "post_harvest"
  end.

Definition Level_name (l : Level) : str :=
  match l with
  | low => py "low" | medium => py "medium" | high => py "high"
  end.

(** [a.model_dump(mode=json)]: every key present, literals as strings. *)
Definition Advisory_model_dump (a : Advisory.t) : Advisory.raw :=
  Advisory.mk_raw
    (Some (Advisory.headline a))
    (Some (CropStage_name (Advisory.stage a)))
    (Some (Advisory.actions_now a))
    (Some (Advisory.watch_out_for a))
    (Some (Advisory.next_questions a))
    (Some (Advisory.rationale_brief a))
    (Some (Level_name (Advisory.confidence a)))
    (Some (Advisory.safety_notes a))
    (Some (Advisory.needs_human_review a)).

(** [plan_node(state)] *)
Definition plan_node (state : GraphState.t) : NodeOut.t :=
  NodeOut.mk None None None None None None (Some (Some (py "plan"))).

(** The query [web_node] builds. *)
Definition web_query (s : GraphState.t) : str :=
  let c := GraphState.context s in
  let crop :=
    match FarmerContext.crop c with
    | Some v => if truthy v then v else py "crop"
    | None => py "crop"
    end in
  let stage := CropStage_name (FarmerContext.stage c) in
  let loc := _first_nonempty [FarmerContext.location_text c; Some []] in
  let symptoms :=
    if truthy (Observation.symptoms (GraphState.observation s))
    then join (py ", ") (firstn 3 (Observation.symptoms (GraphState.observation s)))
    else [] in
  let q_parts := [crop; stage; py "farming"; py "best practices"] in
  let q_parts :=
    if truthy symptoms then q_parts ++ [py "symptoms"; symptoms] else q_parts in
  let q_parts :=
    match loc with
    | Some l => if truthy l then q_parts ++ [py "in"; l] else q_parts
    | None => q_parts
    end in
  join (py " ") (filter nonblank q_parts).

Section WebTool.

(** [tools.web(query, time_range=...)] *)
Variable web : str -> str -> res WebContext.t.

Definition web_node (state : GraphState.t) : res NodeOut.t :=
  let s := GraphState.with_last_node state (Some (py "web")) in
  catch_ToolError
    (ctx <- web (web_query s) (py "month") ;;
     Ok (NodeOut.mk None None None None (Some (Some ctx)) None
           (Some (GraphState.last_node s))))
    (Ok (NodeOut.mk None None None None (Some (GraphState.web s)) None
           (Some (GraphState.last_node s)))).

End WebTool.

(** The content of the most recent user message, the empty string when
    there is none. *)
Fixpoint last_user_in (reversed_messages : list message) : str :=
  match reversed_messages with
  | [] => []
  | m :: rest =>
      if str_eqb (role m) (py "user") then content m else last_user_in rest
  end.

(** [a or b] on optional floats. *)
Definition float_or (a b : option Q) : option Q :=
  if float_truthy a then a else b.

Section Intake.

(** [extract_lat_lon] of [app/tools.py], and what the extraction call gave:
    a validated [IntakeExtraction] or an exception. *)
Variable extract_lat_lon : str -> option Q * option Q.
Variable reply : res IntakeExtraction.t.

(** The context [intake_node] holds before it asks the model. *)
Definition intake_context (state : GraphState.t) : res FarmerContext.t :=
  let last_user := last_user_in (rev (GraphState.messages state)) in
  let c := GraphState.context state in
  let '(lat, lon) := extract_lat_lon last_user in
  let c :=
    match lat, lon with
    | Some _, Some _ =>
        FarmerContext.with_lat_lon c
          (float_or (FarmerContext.lat c) lat) (float_or (FarmerContext.lon c) lon)
    | _, _ => c
    end in
  let c :=
    if negb (opt_truthy (FarmerContext.location_text c)) && truthy last_user
       && (List.length last_user <=? 120)
    then FarmerContext.with_location_text c (Some (strip last_user))
    else c in
  FarmerContext.model_validate c.

Definition intake_node (state : GraphState.t) : res NodeOut.t :=
  let s := GraphState.with_last_node state (Some (py "intake")) in
  ctx <- intake_context s ;;
  match reply with
  | Raise _ =>
      Ok (NodeOut.mk None (Some ctx) (Some (GraphState.observation s)) None None None
            (Some (GraphState.last_node s)))
  | Ok upd =>
      new_ctx <- _merge_context ctx upd ;;
      let new_obs := _merge_observation (GraphState.observation s) upd in
      Ok (NodeOut.mk None (Some new_ctx) (Some new_obs) None None None
            (Some (GraphState.last_node s)))
  end.

End Intake.

(* ------------------------------------------------------------------ *)
(** ** Vocabulary of the further properties *)

(** Whether the character before a position is a word character, after
    reading [s] from a position where it was [pw]. *)
Definition last_word (pw : bool) (s : str) : bool :=
  fold_left (fun _ c => isword c) s pw.

(** A position of a text, seen in the text with [t] after it. *)
Definition extend (t : str) (q : pos) : pos := (fst q, snd q ++ t).

(** No leading white space. *)
Definition no_lead (s : str) : Prop :=
  match s with c :: _ => isspace c = false | [] => True end.

(** A stripped, non-blank string. *)
Definition tidy (s : str) : Prop := blank s = false /\ strip s = s.

(** [w in s]: the text [w] occurs in [s]. *)
Definition contains (w s : str) : Prop := exists pre post, s = pre ++ w ++ post.

(** The three gates of the router. *)
Definition gates_passed (c : FarmerContext.t) : Prop :=
  (coords_truthy c = true \/ given (FarmerContext.location_text c) = true)
  /\ given (FarmerContext.crop c) = true
  /\ FarmerContext.stage c <> unknown.

(** The entries of [added] come from [new]: each is the stripped form of
    one of its non-blank entries. *)
Definition taken_from (new added : list str) : Prop :=
  forall x, In x added ->
    blank x = false /\ exists y, In y new /\ x = strip y.

(** No two entries are equal once lower-cased. *)
Definition distinct_nocase (l : list str) : Prop := NoDup (map lower l).

Definition wilting_observation : Observation.t :=
  Observation.mk [py "Wilting"; py "leaf spots"] [py "aphids"] None medium.

Definition symptom_update : IntakeExtraction.t :=
  IntakeExtraction.mk None None None None None None None
    [py " wilting "; py "Yellow leaves"; py ""; py "yellow LEAVES"]
    [py "Aphids"; py "whitefly"] (Some (py "high")).

Definition weather_down : Q -> Q -> res WeatherSnapshot.t :=
  fun _ _ => Raise ToolError.

Definition web_down : str -> str -> res WebContext.t :=
  fun _ _ => Raise ToolError.

Definition never_parses : str -> option datetime := fun _ => None.

(** Coordinates, crop and stage known, one symptom, fresh weather assumed
    away by having no coordinates: the router's web case. *)
Definition symptom_state : GraphState.t :=
  let s := state_of_context
             (FarmerContext.mk (Some (py "wheat")) vegetative (Some (py "Pune"))
                None None None None None None) in
  GraphState.mk (GraphState.chat_id s) (GraphState.messages s) (GraphState.context s)
    (Observation.mk [py "yellowing leaves"] [] None low) None None None None 1%Z.

(** What is inside fields the node does not return. *)
Definition same_memory (s s' : GraphState.t) : Prop :=
  GraphState.chat_id s' = GraphState.chat_id s
  /\ GraphState.messages s' = GraphState.messages s
  /\ GraphState.weather s' = GraphState.weather s
  /\ GraphState.web s' = GraphState.web s
  /\ GraphState.advisory s' = GraphState.advisory s
  /\ GraphState.turn_count s' = GraphState.turn_count s.

Definition no_message : message := mk_message [] [].

Definition chatty_reply : str :=
  py "Sure! Here is the JSON: {'crop': 'wheat', 'stage': {}} Hope it helps }:-)".

Definition mumbai_extractor : str -> option Q * option Q :=
  fun _ => (Some (129 # 10)%Q, Some (776 # 10)%Q).

(** Six hours and a day, in microseconds. *)
Definition hours_us (h : Z) : Z := (h * 3600 * 1000000)%Z.

(** An advisory that already carries six safety notes. *)
Definition six_notes_advisory : Advisory.t :=
  Advisory.mk (py "Leaf spot control") vegetative
    [py "Remove infected leaves"; py "Apply 2.5 ml per litre"]
    [] [] [] medium
    [py "Wear gloves"; py "Wash hands"; py "Keep children away";
     py "Store tools dry"; py "Burn removed leaves"; py "Ask an expert"]
    false.

Definition shouted_stage_update : IntakeExtraction.t :=
  IntakeExtraction.mk None (Some (py "  Post_Harvest ")) None None None None None
    [] [] None.

(* ------------------------------------------------------------------ *)
(** ** [app/graph.py]: the compiled graph and [run_turn]

    The graph starts at intake, goes to plan, and from plan along the edge
    [_route] names: ask and advice end the run, weather and web lead back
    to plan.  Every external call gets its outcome from the environment;
    calls made on the [k]-th pass through plan may differ from those of
    another pass.  The runtime stops a run that takes more passes than its
    recursion limit by raising an error. *)

Module Env.
Record t : Type := mk {
  extract_lat_lon : str -> option Q * option Q;
  intake_reply : res IntakeExtraction.t;
  fromisoformat : str -> option datetime;
  clock_weather : nat -> Z;
  clock_web : nat -> Z;
  geocode : nat -> str -> res (option Q * option Q * option str);
  weather : nat -> Q -> Q -> res WeatherSnapshot.t;
  web : nat -> str -> str -> res WebContext.t;
  advice_reply : res Advisory.raw }.
End Env.

(** The runs from plan on; [limit] passes through plan are allowed. *)
Fixpoint plan_loop (env : Env.t) (limit k : nat) (state : GraphState.t)
  : res GraphState.t :=
  match limit with
  | O => Raise OtherError
  | S limit' =>
      let s := apply_out state (plan_node state) in
      step <- _route (Env.fromisoformat env)
                (Env.clock_weather env k) (Env.clock_web env k) s ;;
      match step with
      | ASK => Ok (apply_out s (ask_node s))
      | ADVICE => Ok (apply_out s (advice_node (Env.advice_reply env) s))
      | WEATHER =>
          out <- weather_node (Env.geocode env k) (Env.weather env k) s ;;
          plan_loop env limit' (S k) (apply_out s out)
      | WEB =>
          out <- web_node (Env.web env k) s ;;
          plan_loop env limit' (S k) (apply_out s out)
      end
  end.

(** [graph.ainvoke(s)] *)
Definition run_graph (env : Env.t) (limit : nat) (s : GraphState.t)
  : res GraphState.t :=
  out <- intake_node (Env.extract_lat_lon env) (Env.intake_reply env) s ;;
  plan_loop env limit 0 (apply_out s out).

(** [run_turn(state, user_text)]; what the runtime returns is handed back
    as the state it is. *)
Definition run_turn (env : Env.t) (limit : nat) (state : GraphState.t)
  (user_text : str) : res GraphState.t :=
  run_graph env limit (run_turn_enter state user_text).

(** The last message of the history is one the assistant wrote. *)
Definition assistant_spoke_last (s : GraphState.t) : Prop :=
  role (last (GraphState.messages s) no_message) = py "assistant".

Definition ended_at (s : GraphState.t) : Prop :=
  GraphState.last_node s = Some (py "ask")
  \/ GraphState.last_node s = Some (py "advice").

(** An environment in which every tool and every model call fails, and the
    clock stands still. *)
Definition all_down : Env.t :=
  Env.mk (fun _ => (None, None)) (Raise OtherError) never_parses
    (fun _ => 0%Z) (fun _ => 0%Z)
    (fun _ => geocode_down) (fun _ => weather_down) (fun _ => web_down)
    (Raise OtherError).

(* ================================================================== *)
(** * Properties *)

(* ------------------------------------------------------------------ *)
(** ** Guardrail engine *)

(** Which of its three checks made [_guardrails] escalate. *)
Lemma guardrails_needs (adv : Advisory.t) (st : GraphState.t) :
  GuardrailResult.needs_human_review (_guardrails adv st)
  = matches_any risky_patterns (lower (combined_text adv))
    || Level_eqb (Observation.urgency (GraphState.observation st)) high
    || has_alerts st.
Proof.
  unfold _guardrails, matches_any.
  destruct (existsb _ risky_patterns);
    destruct (Level_eqb _ high); destruct (has_alerts st); reflexivity.
Qed.

Lemma guardrails_reasons (adv : Advisory.t) (st : GraphState.t) :
  truthy (GuardrailResult.reasons (_guardrails adv st))
  = GuardrailResult.needs_human_review (_guardrails adv st).
Proof.
  unfold _guardrails.
  destruct (existsb _ risky_patterns);
    destruct (Level_eqb _ high); destruct (has_alerts st); reflexivity.
Qed.

(** *** The patterns of [_guardrails], one unit and one word at a time *)













(** C10. In every result of [_guardrails], [ok] is the negation of the
    escalation flag, and the list of reasons is non-empty exactly when the
    flag is set. *)
Theorem guardrails_verdict_consistent (adv : Advisory.t) (st : GraphState.t) :
  let g := _guardrails adv st in
  GuardrailResult.ok g = negb (GuardrailResult.needs_human_review g)
  /\ (GuardrailResult.reasons g <> [] <-> GuardrailResult.needs_human_review g = true).
Proof.
  split.
  - unfold _guardrails.
    destruct (existsb _ risky_patterns);
      destruct (Level_eqb _ high); destruct (has_alerts st); reflexivity.
  - rewrite <- guardrails_reasons.
    destruct (GuardrailResult.reasons (_guardrails adv st)); simpl; split;
      congruence.
Qed.

(** *** What [_sanitize_advisory] does to a flagged advisory *)

Lemma sanitize_unflagged (a : Advisory.t) (g : GuardrailResult.t) :
  GuardrailResult.needs_human_review g = false -> _sanitize_advisory a g = a.
Proof. intros H. unfold _sanitize_advisory. now rewrite H. Qed.

Lemma sanitize_flagged (a : Advisory.t) (g : GuardrailResult.t) :
  GuardrailResult.needs_human_review g = true ->
  _sanitize_advisory a g
  = Advisory.with_sanitized a
      (firstn 7 (safe_actions_of (Advisory.actions_now a)))
      (firstn 6 ((Advisory.safety_notes a ++ [disclaimer])
                   ++ firstn 2 (GuardrailResult.reasons g)))
      true low.
Proof.
  intros H. unfold _sanitize_advisory. rewrite H. simpl.
  now destruct (Level_eqb (Advisory.confidence a) low).
Qed.

Lemma fallback_action_safe : is_risky_line fallback_action = false.
Proof. vm_compute. reflexivity. Qed.

Lemma safe_actions_of_safe (l : list str) :
  forallb (fun a => negb (is_risky_line a)) (safe_actions_of l) = true.
Proof.
  unfold safe_actions_of.
  destruct (List.length (filter _ l) =? 0).
  - cbn [forallb]. now rewrite fallback_action_safe.
  - apply forallb_forall. intros x Hx. now apply filter_In in Hx.
Qed.

Lemma safe_actions_of_nonempty (l : list str) : safe_actions_of l <> [].
Proof.
  unfold safe_actions_of.
  destruct (filter _ l) as [|x xs]; simpl; discriminate.
Qed.

Lemma forallb_firstn {A} (p : A -> bool) (n : nat) (l : list A) :
  forallb p l = true -> forallb p (firstn n l) = true.
Proof.
  revert n. induction l as [|x l IH]; intros [|n]; simpl; auto.
  intros H. apply andb_true_iff in H. destruct H as [Hx Hl].
  now rewrite Hx, IH.
Qed.

Lemma filter_all {A} (p : A -> bool) (l : list A) :
  forallb p l = true -> filter p l = l.
Proof.
  induction l as [|x l IH]; simpl; [reflexivity|].
  intros H. apply andb_true_iff in H. destruct H as [Hx Hl].
  now rewrite Hx, IH.
Qed.

(** The lines the sanitizer keeps are those its own test accepts. *)
Lemma sanitize_drops_risky_lines (a : Advisory.t) (g : GuardrailResult.t) :
  GuardrailResult.needs_human_review g = true ->
  forall line, In line (Advisory.actions_now (_sanitize_advisory a g)) ->
               is_risky_line line = false.
Proof.
  intros H line Hin. rewrite (sanitize_flagged a g H) in Hin. simpl in Hin.
  pose proof (forallb_firstn _ 7 _ (safe_actions_of_safe (Advisory.actions_now a))) as Hs.
  rewrite forallb_forall in Hs. apply Hs in Hin.
  now apply negb_true_iff in Hin.
Qed.

Lemma sanitize_fallback (a : Advisory.t) (g : GuardrailResult.t) :
  GuardrailResult.needs_human_review g = true ->
  filter (fun x => negb (is_risky_line x)) (Advisory.actions_now a) = [] ->
  Advisory.actions_now (_sanitize_advisory a g) = [fallback_action].
Proof.
  intros H Hf. rewrite (sanitize_flagged a g H). simpl.
  unfold safe_actions_of. now rewrite Hf.
Qed.

(** The guardrail example of the specification. *)
Example sanitize_dosage_advisory :
  let g := _guardrails dosage_advisory (GraphState.fresh (py "42")) in
  GuardrailResult.needs_human_review g = true
  /\ Advisory.actions_now (_sanitize_advisory dosage_advisory g)
     = [py "Remove infected leaves"]
  /\ Advisory.needs_human_review (_sanitize_advisory dosage_advisory g) = true
  /\ Advisory.confidence (_sanitize_advisory dosage_advisory g) = low.
Proof. vm_compute. repeat split. Qed.

(** C1. [_guardrails] flags an action that gives a rate per litre, by its
    pattern [\b(per|/)\s*(l|L|liter|litre|kg)\b]; [is_risky_line] of
    [_sanitize_advisory] has no such pattern, so the sanitized advisory still
    carries the line that one of the guardrail patterns matches. *)
Theorem sanitize_keeps_per_unit_line :
  let g := _guardrails per_litre_advisory (GraphState.fresh (py "42")) in
  GuardrailResult.needs_human_review g = true
  /\ In per_litre_line (Advisory.actions_now (_sanitize_advisory per_litre_advisory g))
  /\ search re_per_unit per_litre_line = true
  /\ In re_per_unit risky_patterns.
Proof.
  cbv zeta. split; [vm_compute; reflexivity|].
  split; [vm_compute; right; left; reflexivity|].
  split; [vm_compute; reflexivity|].
  unfold risky_patterns. right. left. reflexivity.
Qed.

(** *** Applying the sanitizer twice *)

Lemma safe_actions_idem (l : list str) :
  firstn 7 (safe_actions_of (firstn 7 (safe_actions_of l)))
  = firstn 7 (safe_actions_of l).
Proof.
  set (x := firstn 7 (safe_actions_of l)).
  assert (Hsafe : forallb (fun a => negb (is_risky_line a)) x = true)
    by (apply forallb_firstn, safe_actions_of_safe).
  assert (Hne : x <> []).
  { subst x. pose proof (safe_actions_of_nonempty l) as Hn.
    destruct (safe_actions_of l); [contradiction | discriminate]. }
  assert (E : safe_actions_of x = x).
  { unfold safe_actions_of. rewrite (filter_all _ _ Hsafe).
    destruct x; [contradiction | reflexivity]. }
  rewrite E. subst x. rewrite firstn_firstn. reflexivity.
Qed.

Lemma Advisory_ext (x y : Advisory.t) :
  Advisory.headline x = Advisory.headline y ->
  Advisory.stage x = Advisory.stage y ->
  Advisory.actions_now x = Advisory.actions_now y ->
  Advisory.watch_out_for x = Advisory.watch_out_for y ->
  Advisory.next_questions x = Advisory.next_questions y ->
  Advisory.rationale_brief x = Advisory.rationale_brief y ->
  Advisory.confidence x = Advisory.confidence y ->
  Advisory.needs_human_review x = Advisory.needs_human_review y ->
  Advisory.safety_notes x = Advisory.safety_notes y ->
  x = y.
Proof. destruct x, y; simpl; intros; subst; reflexivity. Qed.

Lemma sanitized_notes_length (a : Advisory.t) (g : GuardrailResult.t) :
  GuardrailResult.needs_human_review g = true ->
  List.length (Advisory.safety_notes (_sanitize_advisory a g)) <= 6.
Proof.
  intros H. rewrite (sanitize_flagged a g H).
  cbn [Advisory.with_sanitized Advisory.safety_notes]. apply firstn_le_length.
Qed.

(** C7 (as the code has it). A second application of [_sanitize_advisory]
    leaves every field but the safety notes as the first left it; the
    disclaimer and the first two reasons are appended to the safety notes
    again, up to six entries.  The second application changes nothing
    exactly when the verdict does not escalate or the sanitized notes
    already number six. *)
Theorem sanitize_twice (a : Advisory.t) (g : GuardrailResult.t) :
  let s1 := _sanitize_advisory a g in
  let s2 := _sanitize_advisory s1 g in
  Advisory.headline s2 = Advisory.headline s1
  /\ Advisory.stage s2 = Advisory.stage s1
  /\ Advisory.actions_now s2 = Advisory.actions_now s1
  /\ Advisory.watch_out_for s2 = Advisory.watch_out_for s1
  /\ Advisory.next_questions s2 = Advisory.next_questions s1
  /\ Advisory.rationale_brief s2 = Advisory.rationale_brief s1
  /\ Advisory.confidence s2 = Advisory.confidence s1
  /\ Advisory.needs_human_review s2 = Advisory.needs_human_review s1
  /\ Advisory.safety_notes s2
     = (if GuardrailResult.needs_human_review g
        then firstn 6 ((Advisory.safety_notes s1 ++ [disclaimer])
                         ++ firstn 2 (GuardrailResult.reasons g))
        else Advisory.safety_notes s1)
  /\ (s2 = s1 <->
      GuardrailResult.needs_human_review g = false
      \/ List.length (Advisory.safety_notes s1) = 6).
Proof.
  intros s1 s2.
  assert (F : Advisory.headline s2 = Advisory.headline s1
              /\ Advisory.stage s2 = Advisory.stage s1
              /\ Advisory.actions_now s2 = Advisory.actions_now s1
              /\ Advisory.watch_out_for s2 = Advisory.watch_out_for s1
              /\ Advisory.next_questions s2 = Advisory.next_questions s1
              /\ Advisory.rationale_brief s2 = Advisory.rationale_brief s1
              /\ Advisory.confidence s2 = Advisory.confidence s1
              /\ Advisory.needs_human_review s2 = Advisory.needs_human_review s1
              /\ Advisory.safety_notes s2
                 = (if GuardrailResult.needs_human_review g
                    then firstn 6 ((Advisory.safety_notes s1 ++ [disclaimer])
                                     ++ firstn 2 (GuardrailResult.reasons g))
                    else Advisory.safety_notes s1)).
  { destruct (GuardrailResult.needs_human_review g) eqn:Hg.
    - pose proof (sanitize_flagged s1 g Hg) as E2. fold s2 in E2.
      pose proof (sanitize_flagged a g Hg) as E1. fold s1 in E1.
      rewrite E2. cbn [Advisory.with_sanitized Advisory.headline Advisory.stage
                       Advisory.actions_now Advisory.watch_out_for
                       Advisory.next_questions Advisory.rationale_brief
                       Advisory.confidence Advisory.needs_human_review
                       Advisory.safety_notes].
      repeat split; try (rewrite E1; reflexivity).
      rewrite E1. cbn [Advisory.with_sanitized Advisory.actions_now].
      apply safe_actions_idem.
    - pose proof (sanitize_unflagged s1 g Hg) as E2. fold s2 in E2.
      rewrite E2. repeat split. }
  destruct F as (F1 & F2 & F3 & F4 & F5 & F6 & F7 & F8 & F9).
  repeat split; try assumption.
  - intros Heq. destruct (GuardrailResult.needs_human_review g) eqn:Hg;
      [right | now left].
    pose proof (sanitized_notes_length a g Hg) as Hle. fold s1 in Hle.
    assert (Hlen : List.length (Advisory.safety_notes s2)
                   = List.length (Advisory.safety_notes s1)) by now rewrite Heq.
    rewrite F9, length_firstn, !length_app in Hlen.
    cbn [List.length] in Hlen. lia.
  - intros H. apply Advisory_ext; try assumption.
    rewrite F9. destruct H as [-> | Hlen]; [reflexivity|].
    destruct (GuardrailResult.needs_human_review g); [|reflexivity].
    rewrite <- app_assoc, firstn_app.
    replace (6 - List.length (Advisory.safety_notes s1)) with 0 by lia.
    rewrite firstn_O, app_nil_r, <- Hlen. apply firstn_all.
Qed.

(** An advisory flagged for high urgency only, sanitized twice with the
    verdict [_guardrails] gave: the second pass adds the disclaimer and the
    reason a second time. *)
Lemma sanitize_twice_appends_again :
  let g := _guardrails benign_advisory urgent_state in
  let s1 := _sanitize_advisory benign_advisory g in
  let s2 := _sanitize_advisory s1 g in
  Advisory.safety_notes s1 = [disclaimer; reason_urgency]
  /\ Advisory.safety_notes s2
     = [disclaimer; reason_urgency; disclaimer; reason_urgency]
  /\ s2 <> s1.
Proof.
  cbv zeta. split; [vm_compute; reflexivity|].
  split; [vm_compute; reflexivity|].
  intros H. apply (f_equal Advisory.safety_notes) in H.
  vm_compute in H. discriminate H.
Qed.

(* ------------------------------------------------------------------ *)
(** ** Merge engine *)

Lemma Level_max_order (a b : Level) :
  (if order a <? order b then b else a) = Level_max a b.
Proof. destruct a, b; reflexivity. Qed.

Lemma merge_urgency_supplied (old : Level) (upd : IntakeExtraction.t) :
  merge_urgency old (IntakeExtraction.urgency upd)
  = match supplied_urgency upd with
    | Some u => Level_max old u
    | None => old
    end.
Proof.
  unfold merge_urgency, supplied_urgency.
  destruct (IntakeExtraction.urgency upd) as [raw|]; [|reflexivity].
  destruct raw as [|c t].
  - reflexivity.
  - cbn [truthy].
    destruct (literal_of Level_table (lower (strip (c :: t)))); [|reflexivity].
    apply Level_max_order.
Qed.

Lemma Level_le_max (a b : Level) : Level_le a (Level_max a b).
Proof. unfold Level_le. destruct a, b; simpl; lia. Qed.

(** C4. The merged urgency is never below the old one, and when the update
    supplies one of low, medium, high it is the maximum of the old and the
    supplied level. *)
Theorem merge_observation_urgency (old : Observation.t) (upd : IntakeExtraction.t) :
  let new := Observation.urgency (_merge_observation old upd) in
  Level_le (Observation.urgency old) new
  /\ (forall u, supplied_urgency upd = Some u ->
                new = Level_max (Observation.urgency old) u).
Proof.
  cbn zeta. unfold _merge_observation. cbn [Observation.urgency].
  rewrite merge_urgency_supplied. split.
  - destruct (supplied_urgency upd); [apply Level_le_max | unfold Level_le; lia].
  - intros u Hu. now rewrite Hu.
Qed.

(** A new low signal against an existing high. *)
Lemma merge_observation_urgency_witness :
  supplied_urgency partial_update = Some low
  /\ Observation.urgency (_merge_observation high_observation partial_update) = high.
Proof.
  split.
  - reflexivity.
  - apply (proj2 (merge_observation_urgency high_observation partial_update) low).
    reflexivity.
Defined.

(** *** Blank strings and [v and v.strip()] *)

Lemma truthy_lstrip (s : str) : truthy (lstrip s) = negb (blank s).
Proof.
  induction s as [|c t IH]; simpl; [reflexivity|].
  destruct (isspace c); simpl; [exact IH | reflexivity].
Qed.

Lemma blank_lstrip (s : str) : blank (lstrip s) = blank s.
Proof.
  induction s as [|c t IH]; simpl; [reflexivity|].
  destruct (isspace c) eqn:E; simpl; [exact IH | now rewrite E].
Qed.

Lemma blank_app (s t : str) : blank (s ++ t) = blank s && blank t.
Proof. apply forallb_app. Qed.

Lemma blank_rev (s : str) : blank (rev s) = blank s.
Proof.
  induction s as [|c t IH]; simpl; [reflexivity|].
  rewrite blank_app, IH. simpl. rewrite andb_true_r. apply andb_comm.
Qed.

Lemma truthy_rev {A} (l : list A) : truthy (rev l) = truthy l.
Proof.
  destruct l as [|x l]; simpl; [reflexivity|].
  now destruct (rev l).
Qed.

Lemma truthy_strip (s : str) : truthy (strip s) = negb (blank s).
Proof.
  unfold strip, rstrip.
  now rewrite truthy_rev, truthy_lstrip, blank_rev, blank_lstrip.
Qed.

Lemma nonblank_blank (s : str) : nonblank s = negb (blank s).
Proof.
  unfold nonblank. rewrite truthy_strip.
  destruct s; simpl; [reflexivity|]. reflexivity.
Qed.

Lemma overwrite_merged {A} (f : str -> A) (u : option str) (old : A) :
  merged f u old (overwrite f u old).
Proof.
  unfold merged, overwrite, absent_or_blank. split.
  - intros v -> Hv. now rewrite nonblank_blank, Hv.
  - destruct u as [v|]; [|reflexivity].
    intros Hv. now rewrite nonblank_blank, Hv.
Qed.

Lemma overwrite_kept (f : str -> str) (u old : option str) :
  kept old (overwrite (fun v => Some (f v)) u old).
Proof.
  unfold kept, overwrite. intros Hold.
  destruct u as [v|]; [|exact Hold].
  destruct (nonblank v); [discriminate | exact Hold].
Qed.

(** C5. Merging a partial update into a range-checked context returns a
    context in which each text field of the update that is present and not
    blank has been written (stripped; crop also in lower case; stage read
    against the enumeration, a name outside it giving unknown), every
    field whose update is absent or blank is as it was, the coordinates are
    as they were, and no field that held a value has lost it. *)
Theorem merge_context_frame (old : FarmerContext.t) (upd : IntakeExtraction.t) :
  FarmerContext.valid old = true ->
  exists new, _merge_context old upd = Ok new /\ merge_context_spec old upd new.
Proof.
  intros Hvalid. unfold _merge_context, FarmerContext.model_validate.
  unfold FarmerContext.valid in *. cbn [FarmerContext.lat FarmerContext.lon].
  rewrite Hvalid. eexists. split; [reflexivity|].
  unfold merge_context_spec.
  cbn [FarmerContext.crop FarmerContext.stage FarmerContext.location_text
       FarmerContext.lat FarmerContext.lon FarmerContext.sowing_date
       FarmerContext.irrigation FarmerContext.soil_type FarmerContext.notes].
  repeat split;
    first [ apply overwrite_merged
          | apply (overwrite_kept (fun v => lower (strip v)))
          | apply (overwrite_kept strip) ].
Qed.

Lemma merge_context_frame_witness :
  exists new, _merge_context nagpur_context partial_update = Ok new
              /\ merge_context_spec nagpur_context partial_update new.
Proof.
  apply (merge_context_frame nagpur_context partial_update).
  vm_compute. reflexivity.
Defined.

Example merge_context_sample :
  _merge_context nagpur_context partial_update
  = Ok (FarmerContext.mk (Some (py "wheat")) flowering (Some (py "Nagpur"))
          (Some (2115 # 100)%Q) (Some (7909 # 100)%Q) None (Some (py "drip"))
          None None).
Proof. vm_compute. reflexivity. Qed.

(* ------------------------------------------------------------------ *)
(** ** Advisory construction *)

Lemma blank_strip (s : str) : blank (strip s) = blank s.
Proof.
  unfold strip, rstrip. now rewrite blank_rev, blank_lstrip, blank_rev, blank_lstrip.
Qed.

Lemma In_firstn {A} (n : nat) (l : list A) (x : A) :
  In x (firstn n l) -> In x l.
Proof.
  intros H. rewrite <- (firstn_skipn n l). apply in_or_app. now left.
Qed.

Lemma clean_cleaned_from (v : list str) (n : nat) :
  cleaned_from v (firstn n (Advisory.clean v)).
Proof.
  intros x Hx. apply In_firstn in Hx. unfold Advisory.clean in Hx.
  apply in_map_iff in Hx. destruct Hx as (y & <- & Hy).
  apply filter_In in Hy. destruct Hy as [Hin Hnb].
  rewrite nonblank_blank in Hnb. apply negb_true_iff in Hnb.
  split; [now rewrite blank_strip|]. now exists y.
Qed.

(** C6 (as the code has it). A validated advisory has at most 7 actions,
    5 watch items and 3 follow-up questions, each the stripped form of a
    non-blank entry it was given; its headline has 3 to 120 characters and
    its rationale at most 600; its safety notes are the given ones, neither
    cut nor cleaned. *)
Theorem advisory_validated_bounds (d : Advisory.raw) (a : Advisory.t) :
  Advisory.model_validate d = Ok a -> advisory_bounds d a.
Proof.
  unfold Advisory.model_validate.
  destruct (Advisory.r_headline d) as [h|]; [|discriminate].
  destruct ((3 <=? List.length h) && (List.length h <=? 120)) eqn:Hh;
    [|discriminate]. cbn [negb].
  destruct (Advisory.literal_field CropStage_table (Advisory.r_stage d) unknown)
    as [st|]; [|discriminate]. cbn [bind].
  destruct (List.length (Advisory.or_default (Advisory.r_rationale_brief d) []) <=? 600)
    eqn:Hr; [|discriminate]. cbn [negb].
  destruct (Advisory.literal_field Level_table (Advisory.r_confidence d) medium)
    as [cf|]; [|discriminate]. cbn [bind].
  intros [= <-]. unfold advisory_bounds.
  cbn [Advisory.actions_now Advisory.watch_out_for Advisory.next_questions
       Advisory.headline Advisory.rationale_brief Advisory.safety_notes].
  apply andb_true_iff in Hh. destruct Hh as [H3 H120].
  apply Nat.leb_le in H3, H120, Hr.
  unfold Advisory._limit_actions, Advisory._limit_watch, Advisory._limit_questions.
  do 3 (split; [apply firstn_le_length|]).
  do 3 (split; [apply clean_cleaned_from|]).
  split; [split; assumption|].
  split; [assumption | reflexivity].
Qed.

Lemma advisory_validated_bounds_witness :
  exists a, Advisory.model_validate seven_notes_reply = Ok a
            /\ advisory_bounds seven_notes_reply a.
Proof.
  eexists. split.
  - vm_compute. reflexivity.
  - apply (advisory_validated_bounds seven_notes_reply). vm_compute. reflexivity.
Defined.

(** Seven safety notes, one of them blank, pass validation untouched. *)
Lemma advisory_notes_unbounded :
  exists a, Advisory.model_validate seven_notes_reply = Ok a
            /\ List.length (Advisory.safety_notes a) = 7
            /\ In (py " ") (Advisory.safety_notes a)
            /\ ~ List.length (Advisory.safety_notes a) <= 6.
Proof.
  eexists. split; [vm_compute; reflexivity|].
  cbn [Advisory.safety_notes]. repeat split.
  - simpl. tauto.
  - simpl. lia.
Qed.

(* ------------------------------------------------------------------ *)
(** ** Router *)

Section Router.

Variable fromisoformat : str -> option datetime.
Variables now_weather now_web : Z.


(** Non-zero coordinates, crop and stage known, no snapshot: weather. *)
Example route_mumbai_no_snapshot :
  _route fromisoformat now_weather now_web (mumbai_state None) = Ok WEATHER.
Proof. reflexivity. Qed.

(** The same with a snapshot fetched seven hours ago. *)
Example route_mumbai_seven_hours (t : Z) :
  fromisoformat (WeatherSnapshot.fetched_at_utc old_snapshot) = Some (Aware t) ->
  (now_weather - t = 7 * 3600 * 1000000)%Z ->
  _route fromisoformat now_weather now_web (mumbai_state (Some old_snapshot))
  = Ok WEATHER.
Proof.
  intros Hp Ht. unfold _route, _is_weather_stale, stale_at, _parse_iso_dt.
  cbn -[Z.sub Z.mul Z.ltb] in Hp |- *. rewrite Hp.
  cbn -[Z.sub Z.mul Z.ltb]. rewrite Ht. reflexivity.
Qed.

End Router.

(** C2. Wheat in the vegetative stage at latitude 0, longitude 72.87, with
    no weather snapshot: the coordinates are present and in range and the
    crop and stage gates are passed, yet [_route] answers ask, because it
    tests the coordinates for truth and 0.0 is false. *)
Theorem route_zero_latitude (fromisoformat : str -> option datetime)
  (now_weather now_web : Z) :
  FarmerContext.valid (GraphState.context equator_state) = true
  /\ FarmerContext.lat (GraphState.context equator_state) = Some (0 # 1)%Q
  /\ FarmerContext.lon (GraphState.context equator_state) = Some (7287 # 100)%Q
  /\ given (FarmerContext.crop (GraphState.context equator_state)) = true
  /\ FarmerContext.stage (GraphState.context equator_state) = vegetative
  /\ _is_weather_stale fromisoformat now_weather equator_state = Ok true
  /\ _route fromisoformat now_weather now_web equator_state = Ok ASK
  /\ _route fromisoformat now_weather now_web equator_state_with_place = Ok ADVICE.
Proof. repeat split. Qed.

(* ------------------------------------------------------------------ *)
(** ** Weather node *)

Section WeatherNode.

Variable geocode : str -> res (option Q * option Q * option str).
Variable weather : Q -> Q -> res WeatherSnapshot.t.

Lemma geocode_step_known_coords (s : GraphState.t) :
  coords_truthy (GraphState.context s) = true ->
  weather_node_geocode geocode s = Ok s.
Proof. intros H. unfold weather_node_geocode. now rewrite H. Qed.

(** With usable coordinates, a failed fetch keeps the snapshot and a
    successful fetch replaces it. *)
Lemma weather_node_fetch (st : GraphState.t) (la lo : Q) :
  coords_truthy (GraphState.context st) = true ->
  FarmerContext.lat (GraphState.context st) = Some la ->
  FarmerContext.lon (GraphState.context st) = Some lo ->
  match weather la lo with
  | Ok snap =>
      exists out, weather_node geocode weather st = Ok out
                  /\ GraphState.weather (apply_out st out) = Some snap
  | Raise ToolError =>
      exists out, weather_node geocode weather st = Ok out
                  /\ GraphState.weather (apply_out st out) = GraphState.weather st
  | Raise e => weather_node geocode weather st = Raise e
  end.
Proof.
  intros Hc Hla Hlo. unfold weather_node.
  rewrite geocode_step_known_coords by exact Hc. cbn [bind].
  cbn [GraphState.with_last_node GraphState.context]. rewrite Hc, Hla, Hlo.
  cbn [negb]. destruct (weather la lo) as [snap|[]]; cbn; eauto.
Qed.

(** Without usable coordinates, and geocoding raising [ToolError] or not
    attempted, the node writes [None] over whatever snapshot there was. *)
Lemma weather_node_no_coords (st : GraphState.t) :
  coords_truthy (GraphState.context st) = false ->
  (forall place, geocode place = Raise ToolError) ->
  exists out, weather_node geocode weather st = Ok out
              /\ GraphState.weather (apply_out st out) = None
              /\ GraphState.context (apply_out st out) = GraphState.context st.
Proof.
  intros Hc Hg. unfold weather_node, weather_node_geocode.
  cbn [GraphState.with_last_node GraphState.context]. rewrite Hc. cbn [negb andb].
  destruct (opt_truthy (FarmerContext.location_text (GraphState.context st))).
  - rewrite Hg.
    cbn [bind catch_ToolError GraphState.context GraphState.with_last_node].
    rewrite Hc. cbn [negb]. eexists. repeat split.
  - cbn [bind GraphState.context GraphState.with_last_node].
    rewrite Hc. cbn [negb]. eexists. repeat split.
Qed.

End WeatherNode.




(* ------------------------------------------------------------------ *)
(** ** Message history *)

Lemma compact_messages_length (s : GraphState.t) :
  List.length (GraphState.messages (GraphState.compact_messages s)) <= 16.
Proof.
  unfold GraphState.compact_messages, GraphState.compact_messages_to.
  destruct (16 <? List.length (GraphState.messages s)) eqn:E.
  - cbn [GraphState.with_messages GraphState.messages].
    apply Nat.ltb_lt in E. rewrite length_skipn. lia.
  - apply Nat.ltb_ge in E. exact E.
Qed.

(** What is kept is the end of the list. *)
Lemma compact_messages_suffix (s : GraphState.t) :
  exists dropped,
    GraphState.messages s
    = dropped ++ GraphState.messages (GraphState.compact_messages s).
Proof.
  unfold GraphState.compact_messages, GraphState.compact_messages_to.
  destruct (16 <? List.length (GraphState.messages s)).
  - cbn [GraphState.with_messages GraphState.messages].
    eexists. symmetry. apply firstn_skipn.
  - now exists [].
Qed.

Lemma run_turn_enter_messages (state : GraphState.t) (user_text : str) :
  List.length (GraphState.messages (run_turn_enter state user_text)) <= 16.
Proof. unfold run_turn_enter. apply compact_messages_length. Qed.

Lemma ask_node_messages (state : GraphState.t) :
  List.length (GraphState.messages (apply_out state (ask_node state))) <= 16.
Proof.
  unfold ask_node, apply_out.
  cbn [NodeOut.messages Advisory.or_default GraphState.messages].
  apply compact_messages_length.
Qed.

Lemma advice_node_success_messages (d : Advisory.raw) (a : Advisory.t)
  (state : GraphState.t) :
  safe_parse_advisory d = Ok a ->
  List.length (GraphState.messages (apply_out state (advice_node (Ok d) state))) <= 16.
Proof.
  intros H. unfold advice_node. cbn [bind]. rewrite H.
  unfold apply_out.
  cbn [NodeOut.messages Advisory.or_default GraphState.messages].
  apply compact_messages_length.
Qed.

(** The fallback path adds its reply and returns the list as it is. *)
Lemma advice_node_failure_messages (e : exn) (state : GraphState.t) :
  GraphState.messages (apply_out state (advice_node (Raise e) state))
  = GraphState.messages state ++ [mk_message (py "assistant") advice_fallback].
Proof. reflexivity. Qed.

(** C9. A turn that starts on a history of sixteen messages: [run_turn]
    cuts the history back to sixteen after adding the user message, and
    when the advisory cannot be produced [advice_node] adds its fallback
    reply without cutting, leaving seventeen. *)
Theorem advice_fallback_seventeen_messages :
  let s := run_turn_enter long_history (py "what now?") in
  let s' := apply_out s (advice_node llm_down s) in
  List.length (GraphState.messages s) = 16
  /\ List.length (GraphState.messages s') = 17
  /\ GraphState.advisory s' = None.
Proof. vm_compute. repeat split. Qed.

(* ================================================================== *)
(** * Further properties of the code *)

(** ** A match inside one line is a match inside the joined text *)

Lemma last_word_app (pw : bool) (s t : str) :
  last_word pw (s ++ t) = last_word (last_word pw s) t.
Proof. unfold last_word. apply fold_left_app. Qed.

Lemma next_is_word_app (s t : str) :
  next_is_word t = false -> next_is_word (s ++ t) = next_is_word s.
Proof. intros H. destruct s; simpl; [exact H | reflexivity]. Qed.

Lemma star_run_app p (t : str) :
  forall s pw q, In q (star_run p pw s) -> In (extend t q) (star_run p pw (s ++ t)).
Proof.
  induction s as [|c s IH]; intros pw q Hq.
  - simpl in Hq. destruct Hq as [<-|[]].
    destruct t; simpl; now left.
  - cbn [star_run] in Hq. destruct Hq as [<-|Hq].
    + simpl. now left.
    + change ((c :: s) ++ t) with (c :: (s ++ t)). cbn [star_run]. right.
      destruct (p c); [now apply IH | destruct Hq].
Qed.

Lemma run_app (t : str) :
  next_is_word t = false ->
  forall r pw s q, In q (run r pw s) -> In (extend t q) (run r pw (s ++ t)).
Proof.
  intros Ht. induction r as [| |p|r1 IH1 r2 IH2|r1 IH1 r2 IH2|r1 IH1|p];
    intros pw s q Hq; cbn [run] in *.
  - destruct Hq as [<-|[]]. now left.
  - rewrite (next_is_word_app s t Ht).
    destruct (xorb pw (next_is_word s)); [|destruct Hq].
    destruct Hq as [<-|[]]. now left.
  - destruct s as [|c s]; [destruct Hq|].
    change ((c :: s) ++ t) with (c :: (s ++ t)). cbn iota in Hq |- *.
    destruct (p c); [|destruct Hq].
    destruct Hq as [<-|[]]. now left.
  - apply in_flat_map in Hq. destruct Hq as (q1 & H1 & H2).
    apply in_flat_map. exists (extend t q1). split.
    + now apply IH1.
    + now apply IH2.
  - apply in_app_or in Hq. apply in_or_app.
    destruct Hq as [H|H]; [left; now apply IH1 | right; now apply IH2].
  - apply in_app_or in Hq. apply in_or_app.
    destruct Hq as [H|H]; [left; now apply IH1 | right].
    destruct H as [<-|[]]. now left.
  - now apply star_run_app.
Qed.

Lemma truthy_In {A} (l : list A) : truthy l = true -> exists x, In x l.
Proof. destruct l as [|x l]; [discriminate|]. intros _. exists x. now left. Qed.

Lemma In_truthy {A} (l : list A) (x : A) : In x l -> truthy l = true.
Proof. destruct l; [intros [] | reflexivity]. Qed.

Lemma search_from_app r (t : str) :
  next_is_word t = false ->
  forall s pw, search_from r pw s = true -> search_from r pw (s ++ t) = true.
Proof.
  intros Ht. induction s as [|c s IH]; intros pw H.
  - cbn [search_from] in H. rewrite orb_false_r in H.
    apply truthy_In in H. destruct H as (q & Hq).
    apply (run_app t Ht) in Hq. apply In_truthy in Hq.
    change ([] ++ t) with t in *. destruct t; cbn [search_from]; now rewrite Hq.
  - change ((c :: s) ++ t) with (c :: (s ++ t)). cbn [search_from] in *.
    apply orb_true_iff in H. apply orb_true_iff. destruct H as [H|H].
    + left. apply truthy_In in H. destruct H as (q & Hq).
      apply (run_app t Ht) in Hq. now apply In_truthy in Hq.
    + right. now apply IH.
Qed.

Lemma search_from_prefix r (s : str) :
  forall pre pw,
    search_from r (last_word pw pre) s = true ->
    search_from r pw (pre ++ s) = true.
Proof.
  induction pre as [|c pre IH]; intros pw H.
  - exact H.
  - change ((c :: pre) ++ s) with (c :: (pre ++ s)). cbn [search_from].
    apply orb_true_iff. right. apply IH. exact H.
Qed.

(** A part of a space-joined text sits between non-word neighbours. *)
Lemma join_space_part (parts : list str) (x : str) :
  In x parts ->
  exists pre post,
    join (py " ") parts = pre ++ x ++ post
    /\ last_word false pre = false
    /\ next_is_word post = false.
Proof.
  induction parts as [|p rest IH]; [intros []|].
  intros [<-|Hin].
  - destruct rest as [|p' rest'].
    + exists [], []. cbn [join]. now rewrite app_nil_r.
    + exists [], (py " " ++ join (py " ") (p' :: rest')). repeat split.
  - destruct (IH Hin) as (pre & post & E & Hpre & Hpost).
    destruct rest as [|p' rest']; [destruct Hin|].
    exists (p ++ py " " ++ pre), post. split; [|split].
    + change (join (py " ") (p :: p' :: rest'))
        with (p ++ py " " ++ join (py " ") (p' :: rest')).
      rewrite E. now rewrite <- !app_assoc.
    + rewrite !last_word_app.
      change (last_word (last_word false p) (py " ")) with false. exact Hpre.
    + exact Hpost.
Qed.

Lemma search_in_joined r (parts : list str) (x : str) :
  In x parts -> search r x = true -> search r (join (py " ") parts) = true.
Proof.
  intros Hin H. destruct (join_space_part parts x Hin) as (pre & post & E & Hpre & Hpost).
  rewrite E. unfold search. apply search_from_prefix. rewrite Hpre.
  apply search_from_app; assumption.
Qed.

Lemma search_from_Alt r1 r2 (s : str) :
  forall pw, search_from (Alt r1 r2) pw s = search_from r1 pw s || search_from r2 pw s.
Proof.
  induction s as [|c s IH]; intros pw; cbn [search_from run].
  - rewrite !orb_false_r. now destruct (run r1 pw []), (run r2 pw []).
  - rewrite IH.
    destruct (run r1 pw (c :: s)), (run r2 pw (c :: s));
      cbn [app truthy orb]; try reflexivity.
    now rewrite orb_true_r.
Qed.

Lemma lower_join (sep : str) (parts : list str) :
  lower (join sep parts) = join (lower sep) (map lower parts).
Proof.
  induction parts as [|p rest IH]; [reflexivity|].
  destruct rest as [|p' rest']; [reflexivity|].
  change (join sep (p :: p' :: rest')) with (p ++ sep ++ join sep (p' :: rest')).
  change (map lower (p :: p' :: rest'))
    with (lower p :: map lower (p' :: rest')).
  change (map lower (p' :: rest')) with (lower p' :: map lower rest') at 1.
  change (join (lower sep) (lower p :: lower p' :: map lower rest'))
    with (lower p ++ lower sep ++ join (lower sep) (lower p' :: map lower rest')).
  change (lower p' :: map lower rest') with (map lower (p' :: rest')).
  rewrite <- IH. unfold lower. now rewrite !map_app.
Qed.

(** What [is_risky_line] accepts in a lower-cased action, [_guardrails]
    accepts in the lower-cased joined text, which is the text it searches. *)
Lemma risky_line_flagged (adv : Advisory.t) (line : str) :
  In line (Advisory.actions_now adv) ->
  is_risky_line (lower line) = true ->
  matches_any risky_patterns (lower (combined_text adv)) = true.
Proof.
  intros Hin Hr. unfold is_risky_line in Hr.
  destruct (negb (truthy (lower line))); [discriminate|]. cbn iota in Hr.
  unfold matches_any, combined_text. rewrite lower_join.
  change (lower (py " ")) with (py " ").
  assert (Hparts : In (lower line)
                     (map lower ([Advisory.headline adv] ++ Advisory.actions_now adv
                                   ++ Advisory.watch_out_for adv))).
  { apply in_map. apply in_or_app. right. apply in_or_app. now left. }
  apply orb_true_iff in Hr. destruct Hr as [Hq|Hw]; apply existsb_exists.
  - exists re_quantity. split; [now left|].
    now apply (search_in_joined _ _ (lower line)).
  - unfold re_words in Hw. cbn [alts] in Hw. unfold search in Hw.
    rewrite !search_from_Alt in Hw.
    apply orb_true_iff in Hw. destruct Hw as [Hm|Hw];
      [|apply orb_true_iff in Hw; destruct Hw as [Hd|Hp]].
    + exists re_mix. split; [unfold risky_patterns; simpl; tauto|].
      now apply (search_in_joined _ _ (lower line)).
    + exists re_dose. split; [unfold risky_patterns; simpl; tauto|].
      now apply (search_in_joined _ _ (lower line)).
    + exists re_ppm. split; [unfold risky_patterns; simpl; tauto|].
      now apply (search_in_joined _ _ (lower line)).
Qed.

(** X1. Whatever advisory and state go in, the two functions together leave
    no action that the line test accepts.  When the guardrails escalate,
    no action of the sanitized advisory is a line that [is_risky_line]
    accepts.  When they do not, the advisory comes out as it went in, and
    no action of it, lower-cased as the guardrails lower-case the text they
    search, is a line that [is_risky_line] accepts: such a line, with a
    quantity and unit or one of the words mix, dose, ppm, would have made
    the guardrails escalate. *)
Theorem guarded_actions_pass_line_test (adv : Advisory.t) (st : GraphState.t) :
  let g := _guardrails adv st in
  let out := _sanitize_advisory adv g in
  (GuardrailResult.needs_human_review g = true
   /\ forallb (fun a => negb (is_risky_line a)) (Advisory.actions_now out) = true)
  \/ (GuardrailResult.needs_human_review g = false
      /\ out = adv
      /\ forallb (fun a => negb (is_risky_line (lower a)))
           (Advisory.actions_now out) = true).
Proof.
  cbv zeta.
  destruct (GuardrailResult.needs_human_review (_guardrails adv st)) eqn:Hg.
  - left. split; [reflexivity|].
    apply forallb_forall. intros a Ha. apply negb_true_iff.
    now apply (sanitize_drops_risky_lines adv _ Hg).
  - right. split; [reflexivity|].
    rewrite (sanitize_unflagged adv _ Hg). split; [reflexivity|].
    apply forallb_forall. intros a Ha. apply negb_true_iff.
    destruct (is_risky_line (lower a)) eqn:Hr; [|reflexivity].
    pose proof (risky_line_flagged adv a Ha Hr) as Hm.
    rewrite guardrails_needs, Hm in Hg. discriminate Hg.
Qed.

(* ------------------------------------------------------------------ *)
(** ** Merging symptoms and pests *)

Lemma str_eqb_eq (a b : str) : str_eqb a b = true <-> a = b.
Proof.
  unfold str_eqb. destruct (list_eq_dec ascii_dec a b); split; congruence.
Qed.

Lemma existsb_str_eqb (x : str) (l : list str) :
  existsb (str_eqb x) l = true <-> In x l.
Proof.
  rewrite existsb_exists. split.
  - intros (y & Hy & E). apply str_eqb_eq in E. now subst.
  - intros H. exists x. split; [exact H | now apply str_eqb_eq].
Qed.

Lemma merge_unique_grows (new seen : list str) :
  exists added, merge_unique seen new = seen ++ added /\ taken_from new added.
Proof.
  revert seen. induction new as [|y new IH]; intros seen.
  - exists []. split; [now rewrite app_nil_r | intros x []].
  - cbn [merge_unique].
    destruct (truthy (strip y) && negb (existsb (str_eqb (lower (strip y))) (map lower seen)))
      eqn:E.
    + destruct (IH (seen ++ [strip y])) as (added & Eq & Hfrom).
      exists (strip y :: added). split; [now rewrite Eq, <- app_assoc|].
      intros x [<-|Hx].
      * apply andb_true_iff in E. destruct E as [Ht _].
        rewrite truthy_strip in Ht. apply negb_true_iff in Ht.
        split; [now rewrite blank_strip|]. exists y. split; [now left | reflexivity].
      * destruct (Hfrom x Hx) as (Hb & z & Hz & Ez).
        split; [exact Hb|]. exists z. split; [now right | exact Ez].
    + destruct (IH seen) as (added & Eq & Hfrom).
      exists added. split; [exact Eq|].
      intros x Hx. destruct (Hfrom x Hx) as (Hb & z & Hz & Ez).
      split; [exact Hb|]. exists z. split; [now right | exact Ez].
Qed.

Lemma NoDup_snoc {A} (l : list A) (x : A) :
  NoDup l -> ~ In x l -> NoDup (l ++ [x]).
Proof.
  induction 1 as [|y l Hy Hl IH]; intros Hx; simpl.
  - constructor; [intros [] | constructor].
  - constructor.
    + intros Hin. apply in_app_or in Hin. destruct Hin as [Hin|[->|[]]].
      * now apply Hy.
      * apply Hx. now left.
    + apply IH. intros Hin. apply Hx. now right.
Qed.

Lemma merge_unique_distinct (new seen : list str) :
  distinct_nocase seen -> distinct_nocase (merge_unique seen new).
Proof.
  unfold distinct_nocase. revert seen.
  induction new as [|y new IH]; intros seen H; cbn [merge_unique]; [exact H|].
  destruct (truthy (strip y)); cbn [andb]; [|now apply IH].
  destruct (existsb (str_eqb (lower (strip y))) (map lower seen)) eqn:E;
    cbn [negb]; [now apply IH|].
  apply IH. rewrite map_app. apply NoDup_snoc; [exact H|].
  intros Hin. apply existsb_str_eqb in Hin. congruence.
Qed.

Lemma merge_unique_covers (new seen : list str) (y : str) :
  In y new -> truthy (strip y) = true ->
  In (lower (strip y)) (map lower (merge_unique seen new)).
Proof.
  revert seen. induction new as [|z new IH]; intros seen Hin Ht; [destruct Hin|].
  cbn [merge_unique]. destruct Hin as [->|Hin].
  - rewrite Ht. cbn [andb].
    destruct (existsb (str_eqb (lower (strip y))) (map lower seen)) eqn:E; cbn [negb].
    + apply existsb_str_eqb in E.
      destruct (merge_unique_grows new seen) as (added & -> & _).
      rewrite map_app. apply in_or_app. now left.
    + destruct (merge_unique_grows new (seen ++ [strip y])) as (added & -> & _).
      rewrite !map_app. apply in_or_app. left. apply in_or_app. right. now left.
  - destruct (truthy (strip z) && _); now apply IH.
Qed.

Lemma merge_unique_nothing_new (new seen : list str) :
  (forall y, In y new -> truthy (strip y) = true ->
             In (lower (strip y)) (map lower seen)) ->
  merge_unique seen new = seen.
Proof.
  induction new as [|z new IH]; intros H; cbn [merge_unique]; [reflexivity|].
  destruct (truthy (strip z)) eqn:Ht; cbn [andb].
  - assert (E : existsb (str_eqb (lower (strip z))) (map lower seen) = true).
    { apply existsb_str_eqb. apply H; [now left | exact Ht]. }
    rewrite E. cbn [negb]. apply IH. intros y Hy. apply H. now right.
  - apply IH. intros y Hy. apply H. now right.
Qed.

Lemma merge_unique_idem (new seen : list str) :
  merge_unique (merge_unique seen new) new = merge_unique seen new.
Proof.
  apply merge_unique_nothing_new. intros y Hy Ht. now apply merge_unique_covers.
Qed.

Lemma merge_urgency_idem (old : Level) (u : option str) :
  merge_urgency (merge_urgency old u) u = merge_urgency old u.
Proof.
  unfold merge_urgency. destruct u as [raw|]; [|reflexivity].
  destruct (truthy raw); [|reflexivity].
  destruct (literal_of Level_table (lower (strip raw))) as [l|]; [|reflexivity].
  destruct old, l; reflexivity.
Qed.

(** X2. [_merge_observation] only ever adds to the symptom and pest lists:
    the old entries stay, in their order, at the front, and every entry
    added is the stripped form of a non-blank entry of the update. *)
Theorem merge_observation_additive (old : Observation.t) (upd : IntakeExtraction.t) :
  exists more_symptoms more_pests,
    Observation.symptoms (_merge_observation old upd)
    = Observation.symptoms old ++ more_symptoms
    /\ Observation.pests_seen (_merge_observation old upd)
       = Observation.pests_seen old ++ more_pests
    /\ taken_from (IntakeExtraction.symptoms upd) more_symptoms
    /\ taken_from (IntakeExtraction.pests_seen upd) more_pests.
Proof.
  destruct (merge_unique_grows (IntakeExtraction.symptoms upd) (Observation.symptoms old))
    as (ms & Es & Hs).
  destruct (merge_unique_grows (IntakeExtraction.pests_seen upd) (Observation.pests_seen old))
    as (mp & Ep & Hp).
  exists ms, mp. unfold _merge_observation.
  cbn [Observation.symptoms Observation.pests_seen].
  split; [exact Es|]. split; [exact Ep|]. split; assumption.
Qed.

(** X3. If no two symptoms, and no two pests, of the old observation are
    equal up to letter case, the same holds of the merged observation. *)
Theorem merge_observation_distinct (old : Observation.t) (upd : IntakeExtraction.t) :
  distinct_nocase (Observation.symptoms old) ->
  distinct_nocase (Observation.pests_seen old) ->
  distinct_nocase (Observation.symptoms (_merge_observation old upd))
  /\ distinct_nocase (Observation.pests_seen (_merge_observation old upd)).
Proof.
  intros Hs Hp. unfold _merge_observation.
  cbn [Observation.symptoms Observation.pests_seen].
  split; now apply merge_unique_distinct.
Qed.

Lemma merge_observation_distinct_witness :
  Observation.symptoms (_merge_observation wilting_observation symptom_update)
  = [py "Wilting"; py "leaf spots"; py "Yellow leaves"]
  /\ distinct_nocase
       (Observation.symptoms (_merge_observation wilting_observation symptom_update))
  /\ distinct_nocase
       (Observation.pests_seen (_merge_observation wilting_observation symptom_update)).
Proof.
  split; [vm_compute; reflexivity|].
  apply (merge_observation_distinct wilting_observation symptom_update);
    unfold distinct_nocase; cbn [wilting_observation Observation.symptoms
                                 Observation.pests_seen];
    repeat constructor; cbn; intuition discriminate.
Defined.

(** X4. Merging the same update a second time changes nothing. *)
Theorem merge_observation_idempotent (old : Observation.t) (upd : IntakeExtraction.t) :
  _merge_observation (_merge_observation old upd) upd = _merge_observation old upd.
Proof.
  unfold _merge_observation.
  cbn [Observation.symptoms Observation.pests_seen Observation.urgency].
  now rewrite !merge_unique_idem, merge_urgency_idem.
Qed.

(* ------------------------------------------------------------------ *)
(** ** Stripping twice, and validating what was validated *)

Lemma lstrip_no_lead (s : str) : no_lead (lstrip s).
Proof.
  induction s as [|c s IH]; simpl; [exact I|].
  destruct (isspace c) eqn:E; [exact IH | exact E].
Qed.

Lemma lstrip_fixed (s : str) : no_lead s -> lstrip s = s.
Proof. destruct s as [|c s]; simpl; [reflexivity|]. now intros ->. Qed.

Lemma lstrip_keeps_last (x : str) (c : ascii) :
  isspace c = false -> exists w, lstrip (x ++ [c]) = w ++ [c].
Proof.
  intros Hc. induction x as [|d x IH]; simpl.
  - rewrite Hc. now exists [].
  - destruct (isspace d); [exact IH|]. now exists (d :: x).
Qed.

Lemma rstrip_no_lead (u : str) : no_lead u -> no_lead (rstrip u).
Proof.
  unfold rstrip. destruct u as [|c t]; [intros _; exact I|].
  simpl. intros Hc.
  destruct (lstrip_keeps_last (rev t) c Hc) as (w & ->).
  rewrite rev_app_distr. simpl. exact Hc.
Qed.

Lemma strip_idem (s : str) : strip (strip s) = strip s.
Proof.
  unfold strip at 1.
  rewrite (lstrip_fixed (strip s))
    by (unfold strip; apply rstrip_no_lead, lstrip_no_lead).
  unfold rstrip at 1.
  assert (E : rev (strip s) = lstrip (rev (lstrip s)))
    by (unfold strip, rstrip; apply rev_involutive).
  rewrite E, (lstrip_fixed _ (lstrip_no_lead _)), <- E. apply rev_involutive.
Qed.

Lemma clean_tidy (v : list str) : Forall tidy (Advisory.clean v).
Proof.
  apply Forall_forall. intros x Hx. unfold Advisory.clean in Hx.
  apply in_map_iff in Hx. destruct Hx as (y & <- & Hy).
  apply filter_In in Hy. destruct Hy as [_ Hnb].
  rewrite nonblank_blank in Hnb. apply negb_true_iff in Hnb.
  split; [now rewrite blank_strip | apply strip_idem].
Qed.

Lemma clean_fixed (l : list str) : Forall tidy l -> Advisory.clean l = l.
Proof.
  unfold Advisory.clean. induction 1 as [|x l [Hb Hs] Hl IH]; [reflexivity|].
  cbn [filter]. rewrite nonblank_blank, Hb. cbn [negb map]. now rewrite Hs, IH.
Qed.

Lemma Forall_firstn {A} (P : A -> Prop) (n : nat) (l : list A) :
  Forall P l -> Forall P (firstn n l).
Proof.
  intros H. apply Forall_forall. intros x Hx.
  rewrite Forall_forall in H. apply H. now apply In_firstn in Hx.
Qed.

Lemma limit_idem (n : nat) (v : list str) :
  firstn n (Advisory.clean (firstn n (Advisory.clean v)))
  = firstn n (Advisory.clean v).
Proof.
  rewrite clean_fixed by apply Forall_firstn, clean_tidy.
  rewrite firstn_firstn. now rewrite Nat.min_id.
Qed.

Lemma literal_of_CropStage_name (st : CropStage) :
  literal_of CropStage_table (CropStage_name st) = Some st.
Proof. destruct st; vm_compute; reflexivity. Qed.

Lemma literal_of_Level_name (l : Level) :
  literal_of Level_table (Level_name l) = Some l.
Proof. destruct l; vm_compute; reflexivity. Qed.

(** X5. An advisory that came out of [Advisory.model_validate] goes through
    a dump and a second validation unchanged: the list validators keep what
    they already cleaned and cut, and each literal is read back from its
    name. *)
Theorem advisory_validate_dump_roundtrip (d : Advisory.raw) (a : Advisory.t) :
  Advisory.model_validate d = Ok a ->
  Advisory.model_validate (Advisory_model_dump a) = Ok a.
Proof.
  unfold Advisory.model_validate at 1.
  destruct (Advisory.r_headline d) as [h|]; [|discriminate].
  destruct ((3 <=? List.length h) && (List.length h <=? 120)) eqn:Hh;
    [|discriminate]. cbn [negb].
  destruct (Advisory.literal_field CropStage_table (Advisory.r_stage d) unknown)
    as [st|]; [|discriminate]. cbn [bind].
  destruct (List.length (Advisory.or_default (Advisory.r_rationale_brief d) []) <=? 600)
    eqn:Hr; [|discriminate]. cbn [negb].
  destruct (Advisory.literal_field Level_table (Advisory.r_confidence d) medium)
    as [cf|]; [|discriminate]. cbn [bind].
  intros [= <-].
  unfold Advisory.model_validate, Advisory_model_dump.
  cbn [Advisory.r_headline Advisory.r_stage Advisory.r_actions_now
       Advisory.r_watch_out_for Advisory.r_next_questions
       Advisory.r_rationale_brief Advisory.r_confidence Advisory.r_safety_notes
       Advisory.r_needs_human_review Advisory.headline Advisory.stage
       Advisory.actions_now Advisory.watch_out_for Advisory.next_questions
       Advisory.rationale_brief Advisory.confidence Advisory.safety_notes
       Advisory.needs_human_review Advisory.or_default Advisory.literal_field].
  rewrite Hh, Hr, literal_of_CropStage_name, literal_of_Level_name.
  cbn [negb bind].
  unfold Advisory._limit_actions, Advisory._limit_watch, Advisory._limit_questions.
  now rewrite !limit_idem.
Qed.

Lemma advisory_validate_dump_roundtrip_witness :
  exists a, Advisory.model_validate seven_notes_reply = Ok a
            /\ Advisory.model_validate (Advisory_model_dump a) = Ok a.
Proof.
  eexists. split.
  - vm_compute. reflexivity.
  - apply (advisory_validate_dump_roundtrip seven_notes_reply).
    vm_compute. reflexivity.
Defined.

(* ------------------------------------------------------------------ *)
(** ** Router: gates, questions, and tools that fail *)

Section RouterMore.

Variable fromisoformat : str -> option datetime.

Lemma older_than_later (now now' : Z) (dt : datetime) (hours : Z) :
  older_than now dt hours = Ok true -> (now <= now')%Z ->
  older_than now' dt hours = Ok true.
Proof.
  destruct dt as [t|t]; simpl; [|discriminate].
  intros [= H] Hle. f_equal. apply Z.ltb_lt. apply Z.ltb_lt in H. lia.
Qed.

Lemma stale_at_later (now now' hours : Z) (ts : option str) :
  stale_at fromisoformat now hours ts = Ok true -> (now <= now')%Z ->
  stale_at fromisoformat now' hours ts = Ok true.
Proof.
  unfold stale_at. destruct ts as [ts|]; [|reflexivity].
  destruct (_parse_iso_dt fromisoformat ts); [|reflexivity].
  apply older_than_later.
Qed.

Lemma stale_at_defined (now now' hours : Z) (ts : option str) (b : bool) :
  stale_at fromisoformat now hours ts = Ok b ->
  exists b', stale_at fromisoformat now' hours ts = Ok b'.
Proof.
  unfold stale_at. destruct ts as [ts|]; [|now exists true].
  destruct (_parse_iso_dt fromisoformat ts) as [[t|t]|]; simpl.
  - intros _. eexists. reflexivity.
  - discriminate.
  - now exists true.
Qed.

(** The router, once its three gates are passed. *)
Lemma route_unfold (nw nb : Z) (st : GraphState.t) :
  _route fromisoformat nw nb st
  = let c := GraphState.context st in
    if negb (coords_truthy c) && negb (given (FarmerContext.location_text c)) then Ok ASK
    else if negb (given (FarmerContext.crop c)) then Ok ASK
    else if CropStage_eqb (FarmerContext.stage c) unknown then Ok ASK
    else
      go_weather <- (if coords_truthy c then _is_weather_stale fromisoformat nw st
                     else Ok false) ;;
      if go_weather then Ok WEATHER
      else
        go_web <- (if truthy (Observation.symptoms (GraphState.observation st))
                   then _is_web_stale fromisoformat nb st else Ok false) ;;
        if go_web then Ok WEB else Ok ADVICE.
Proof. reflexivity. Qed.

Lemma CropStage_eqb_unknown (st : CropStage) :
  CropStage_eqb st unknown = false <-> st <> unknown.
Proof. destruct st; simpl; split; congruence. Qed.

Lemma gates_open (c : FarmerContext.t) :
  gates_passed c <->
  negb (coords_truthy c) && negb (given (FarmerContext.location_text c)) = false
  /\ negb (given (FarmerContext.crop c)) = false
  /\ CropStage_eqb (FarmerContext.stage c) unknown = false.
Proof.
  unfold gates_passed. rewrite CropStage_eqb_unknown.
  destruct (coords_truthy c), (given (FarmerContext.location_text c)),
    (given (FarmerContext.crop c)); simpl; intuition congruence.
Qed.

(** X7. Whenever the router sends the turn to a tool or to the advice node,
    the three gates are passed: some location is known (usable coordinates
    or a non-blank place), the crop is non-blank and the stage is not
    unknown. *)
Theorem route_beyond_ask_gated (nw nb : Z) (st : GraphState.t) (step : Step) :
  _route fromisoformat nw nb st = Ok step -> step <> ASK ->
  gates_passed (GraphState.context st).
Proof.
  rewrite route_unfold. cbv zeta. intros H Hstep. apply gates_open.
  destruct (negb (coords_truthy _) && negb (given _));
    [injection H as <-; now contradiction Hstep|].
  destruct (negb (given (FarmerContext.crop _)));
    [injection H as <-; now contradiction Hstep|].
  destruct (CropStage_eqb _ unknown);
    [injection H as <-; now contradiction Hstep|].
  repeat split.
Qed.

Lemma ask_message_unfold (st : GraphState.t) :
  _ask_message_for_missing st
  = let c := GraphState.context st in
    if negb (coords_truthy c) && negb (given (FarmerContext.location_text c))
    then ask_location
    else if negb (given (FarmerContext.crop c)) then ask_crop
    else if CropStage_eqb (FarmerContext.stage c) unknown then ask_stage
    else if truthy (Observation.symptoms (GraphState.observation st))
            && negb (match GraphState.web st with Some _ => true | None => false end)
    then ask_symptoms
    else ask_changes.
Proof.
  unfold _ask_message_for_missing, coords_truthy. cbv zeta.
  now rewrite negb_andb.
Qed.

(** X8. Whenever the router answers ask, the question [ask_node] puts is
    one of the three gate questions, and the one for the first gate that is
    shut: location, then crop, then stage.  The symptom and the generic
    prompt are never what the router's ask leads to. *)
Theorem route_ask_question (nw nb : Z) (st : GraphState.t) :
  _route fromisoformat nw nb st = Ok ASK ->
  let c := GraphState.context st in
  let known_location :=
    coords_truthy c || given (FarmerContext.location_text c) in
  (known_location = false /\ _ask_message_for_missing st = ask_location)
  \/ (known_location = true /\ given (FarmerContext.crop c) = false
      /\ _ask_message_for_missing st = ask_crop)
  \/ (known_location = true /\ given (FarmerContext.crop c) = true
      /\ FarmerContext.stage c = unknown
      /\ _ask_message_for_missing st = ask_stage).
Proof.
  rewrite route_unfold, ask_message_unfold. cbv zeta.
  destruct (coords_truthy (GraphState.context st)) eqn:Ec;
    destruct (given (FarmerContext.location_text (GraphState.context st))) eqn:El;
    cbn [negb andb orb];
    try (intros _; left; split; reflexivity).
  all: destruct (given (FarmerContext.crop (GraphState.context st))) eqn:Ecrop;
    cbn [negb];
    try (intros _; right; left; repeat split; reflexivity).
  all: destruct (CropStage_eqb (FarmerContext.stage (GraphState.context st)) unknown)
         eqn:Es;
    try (intros _; right; right; repeat split; try reflexivity;
         destruct (FarmerContext.stage (GraphState.context st));
         (reflexivity || discriminate Es)).
  all: intros H; exfalso; revert H;
    destruct (_is_weather_stale fromisoformat nw st) as [[]|];
    destruct (truthy (Observation.symptoms (GraphState.observation st)));
    destruct (_is_web_stale fromisoformat nb st) as [[]|];
    cbn [bind]; discriminate.
Qed.

End RouterMore.

Lemma route_ask_question_witness :
  let c := GraphState.context equator_state in
  let known_location :=
    coords_truthy c || given (FarmerContext.location_text c) in
  (known_location = false /\ _ask_message_for_missing equator_state = ask_location)
  \/ (known_location = true /\ given (FarmerContext.crop c) = false
      /\ _ask_message_for_missing equator_state = ask_crop)
  \/ (known_location = true /\ given (FarmerContext.crop c) = true
      /\ FarmerContext.stage c = unknown
      /\ _ask_message_for_missing equator_state = ask_stage).
Proof.
  apply (route_ask_question never_parses 0 0 equator_state). reflexivity.
Defined.

Lemma route_beyond_ask_gated_witness :
  gates_passed (GraphState.context (mumbai_state None)).
Proof.
  apply (route_beyond_ask_gated never_parses 0 0 (mumbai_state None) WEATHER).
  - reflexivity.
  - discriminate.
Defined.

Section Outage.

Variable fromisoformat : str -> option datetime.
Variable geocode : str -> res (option Q * option Q * option str).
Variable weather : Q -> Q -> res WeatherSnapshot.t.
Variable web : str -> str -> res WebContext.t.

(** The router reads the context, the observation and the two tool
    results, nothing else. *)
Lemma route_last_node (nw nb : Z) (st : GraphState.t) (n : option str) :
  _route fromisoformat nw nb (GraphState.with_last_node st n)
  = _route fromisoformat nw nb st.
Proof. reflexivity. Qed.

Lemma route_weather_inv (nw nb : Z) (st : GraphState.t) :
  _route fromisoformat nw nb st = Ok WEATHER ->
  gates_passed (GraphState.context st)
  /\ coords_truthy (GraphState.context st) = true
  /\ _is_weather_stale fromisoformat nw st = Ok true.
Proof.
  rewrite route_unfold, gates_open. cbv zeta.
  destruct (negb (coords_truthy _) && negb (given _)); [discriminate|].
  destruct (negb (given (FarmerContext.crop _))); [discriminate|].
  destruct (CropStage_eqb _ unknown); [discriminate|].
  destruct (coords_truthy (GraphState.context st)); cbn [bind].
  - destruct (_is_weather_stale fromisoformat nw st) as [[]|]; cbn [bind].
    + intros _. repeat split.
    + destruct (truthy _); [|discriminate].
      destruct (_is_web_stale fromisoformat nb st) as [[]|]; discriminate.
    + discriminate.
  - destruct (truthy _); [|discriminate].
    destruct (_is_web_stale fromisoformat nb st) as [[]|]; discriminate.
Qed.

Lemma weather_node_failed (st : GraphState.t) :
  coords_truthy (GraphState.context st) = true ->
  (forall la lo, weather la lo = Raise ToolError) ->
  exists out, weather_node geocode weather st = Ok out
              /\ apply_out st out = GraphState.with_last_node st (Some (py "weather")).
Proof.
  intros Hc Hw. unfold weather_node.
  rewrite geocode_step_known_coords by exact Hc. cbn [bind].
  cbn [GraphState.with_last_node GraphState.context]. rewrite Hc. cbn [negb].
  unfold coords_truthy, float_truthy in Hc.
  destruct (FarmerContext.lat (GraphState.context st)) as [la|]; [|discriminate].
  destruct (FarmerContext.lon (GraphState.context st)) as [lo|];
    [|now rewrite andb_false_r in Hc].
  rewrite Hw. cbn [bind catch_ToolError]. eexists. split; reflexivity.
Qed.

(** X9. When the router has chosen the weather node and the weather tool
    fails, the node changes nothing but the node name, and the router, asked
    again at the same or any later time, chooses the weather node again: a
    failing weather tool is retried, it never lets the turn go on to web,
    advice or ask. *)
Theorem weather_outage_repeats (nw nb nw' nb' : Z) (st : GraphState.t) :
  _route fromisoformat nw nb st = Ok WEATHER ->
  (forall la lo, weather la lo = Raise ToolError) ->
  (nw <= nw')%Z ->
  exists out,
    weather_node geocode weather st = Ok out
    /\ apply_out st out = GraphState.with_last_node st (Some (py "weather"))
    /\ _route fromisoformat nw' nb' (apply_out st out) = Ok WEATHER.
Proof.
  intros Hr Hw Hle.
  destruct (route_weather_inv _ _ _ Hr) as (Hg & Hc & Hs).
  destruct (weather_node_failed st Hc Hw) as (out & Hout & Est).
  exists out. split; [exact Hout|]. split; [exact Est|].
  rewrite Est, route_last_node, route_unfold. cbv zeta.
  apply gates_open in Hg. destruct Hg as (-> & -> & ->). rewrite Hc. cbn [bind].
  unfold _is_weather_stale in *. now rewrite (stale_at_later _ _ _ _ _ Hs Hle).
Qed.

Lemma route_web_inv (nw nb : Z) (st : GraphState.t) :
  _route fromisoformat nw nb st = Ok WEB ->
  gates_passed (GraphState.context st)
  /\ (coords_truthy (GraphState.context st) = true ->
      _is_weather_stale fromisoformat nw st = Ok false)
  /\ truthy (Observation.symptoms (GraphState.observation st)) = true
  /\ _is_web_stale fromisoformat nb st = Ok true.
Proof.
  rewrite route_unfold, gates_open. cbv zeta.
  destruct (negb (coords_truthy _) && negb (given _)); [discriminate|].
  destruct (negb (given (FarmerContext.crop _))); [discriminate|].
  destruct (CropStage_eqb _ unknown); [discriminate|].
  destruct (coords_truthy (GraphState.context st)); cbn [bind].
  - destruct (_is_weather_stale fromisoformat nw st) as [[]|]; cbn [bind];
      try discriminate.
    destruct (truthy _); [|discriminate].
    destruct (_is_web_stale fromisoformat nb st) as [[]|]; try discriminate.
    intros _. repeat split.
  - destruct (truthy _); [|discriminate].
    destruct (_is_web_stale fromisoformat nb st) as [[]|]; try discriminate.
    intros _. split; [repeat split|]. split; [discriminate|]. repeat split.
Qed.

(** X10. When the router has chosen the web node and the search tool fails,
    the node keeps the web context it was given and changes nothing but the
    node name, and the router, asked again at any later time, chooses the
    weather node or the web node again, never advice or ask. *)
Theorem web_outage_no_advice (nw nb nw' nb' : Z) (st : GraphState.t) :
  _route fromisoformat nw nb st = Ok WEB ->
  (forall q range, web q range = Raise ToolError) ->
  (nb <= nb')%Z ->
  exists out,
    web_node web st = Ok out
    /\ apply_out st out = GraphState.with_last_node st (Some (py "web"))
    /\ (_route fromisoformat nw' nb' (apply_out st out) = Ok WEATHER
        \/ _route fromisoformat nw' nb' (apply_out st out) = Ok WEB).
Proof.
  intros Hr Hw Hle.
  destruct (route_web_inv _ _ _ Hr) as (Hg & Hfresh & Hsym & Hs).
  assert (Hout : web_node web st
                 = Ok (NodeOut.mk None None None None (Some (GraphState.web st)) None
                         (Some (Some (py "web"))))).
  { unfold web_node. now rewrite Hw. }
  eexists. split; [exact Hout|]. split; [reflexivity|].
  change (apply_out st _) with (GraphState.with_last_node st (Some (py "web"))).
  rewrite route_last_node, route_unfold. cbv zeta.
  apply gates_open in Hg. destruct Hg as (-> & -> & ->).
  rewrite Hsym. unfold _is_web_stale in *.
  rewrite (stale_at_later _ _ _ _ _ Hs Hle).
  destruct (coords_truthy (GraphState.context st)); cbn [bind].
  - unfold _is_weather_stale in *.
    destruct (stale_at_defined fromisoformat nw nw' 6 _ false (Hfresh eq_refl))
      as ([] & ->); cbn [bind]; [now left | now right].
  - now right.
Qed.

End Outage.

Lemma weather_outage_repeats_witness :
  exists out,
    weather_node geocode_down weather_down (mumbai_state None) = Ok out
    /\ apply_out (mumbai_state None) out
       = GraphState.with_last_node (mumbai_state None) (Some (py "weather"))
    /\ _route never_parses 1 1 (apply_out (mumbai_state None) out) = Ok WEATHER.
Proof.
  apply (weather_outage_repeats never_parses geocode_down weather_down
           0 0 1 1 (mumbai_state None)).
  - reflexivity.
  - reflexivity.
  - lia.
Defined.

Lemma web_outage_no_advice_witness :
  exists out,
    web_node web_down symptom_state = Ok out
    /\ apply_out symptom_state out
       = GraphState.with_last_node symptom_state (Some (py "web"))
    /\ (_route never_parses 1 1 (apply_out symptom_state out) = Ok WEATHER
        \/ _route never_parses 1 1 (apply_out symptom_state out) = Ok WEB).
Proof.
  apply (web_outage_no_advice never_parses web_down 0 0 1 1 symptom_state).
  - reflexivity.
  - reflexivity.
  - lia.
Defined.

(* ------------------------------------------------------------------ *)
(** ** The web query *)

Lemma blank_join (sep : str) (l : list str) (x : str) :
  In x l -> blank x = false -> blank (join sep l) = false.
Proof.
  induction l as [|p rest IH]; [intros []|].
  intros Hin Hx. cbn [join]. destruct rest as [|p' rest'].
  - destruct Hin as [->|[]]. exact Hx.
  - rewrite !blank_app. destruct Hin as [->|Hin].
    + now rewrite Hx.
    + rewrite (IH Hin Hx). now rewrite !andb_false_r.
Qed.

Lemma join_adjacent (sep a b : str) (l1 l2 : list str) :
  contains (a ++ sep ++ b) (join sep (l1 ++ a :: b :: l2)).
Proof.
  induction l1 as [|x l1 IH].
  - exists []. destruct l2 as [|y l2].
    + exists []. cbn [app join]. now rewrite !app_nil_r.
    + exists (sep ++ join sep (y :: l2)).
      change (join sep ([] ++ a :: b :: y :: l2))
        with (a ++ sep ++ b ++ sep ++ join sep (y :: l2)).
      now rewrite <- !app_assoc.
  - destruct IH as (pre & post & E).
    exists (x ++ sep ++ pre), post.
    change ((x :: l1) ++ a :: b :: l2) with (x :: (l1 ++ a :: b :: l2)).
    destruct (l1 ++ a :: b :: l2) as [|y rest] eqn:El.
    + now destruct l1.
    + change (join sep (x :: y :: rest)) with (x ++ sep ++ join sep (y :: rest)).
      rewrite E. now rewrite <- !app_assoc.
Qed.

(** X11. Whatever the state, the query [web_node] hands to the search tool
    contains the words farming best practices, in this order and one space
    apart, and so is never blank: the tool's own refusal of an empty query
    cannot be reached from the node. *)
Theorem web_query_never_blank (st : GraphState.t) :
  contains (py "farming best practices") (web_query st)
  /\ blank (web_query st) = false
  /\ truthy (strip (web_query st)) = true.
Proof.
  assert (H : blank (web_query st) = false).
  { unfold web_query. cbv zeta.
    set (crop := match FarmerContext.crop _ with Some _ => _ | None => _ end).
    set (sym := if truthy (Observation.symptoms _) then _ else _).
    set (loc := _first_nonempty _).
    apply (blank_join _ _ (py "farming")); [|reflexivity].
    apply filter_In. split; [|reflexivity].
    destruct (truthy sym); destruct loc as [l|]; try destruct (truthy l);
      repeat (apply in_or_app; left); right; right; left; reflexivity. }
  split; [|split; [exact H | now rewrite truthy_strip, H]].
  unfold web_query. cbv zeta.
  set (crop := match FarmerContext.crop _ with Some _ => _ | None => _ end).
  set (sym := if truthy (Observation.symptoms _) then _ else _).
  set (loc := _first_nonempty _).
  set (stage := CropStage_name _).
  assert (E : exists tail,
             match loc with
             | Some l =>
                 if truthy l
                 then (if truthy sym
                       then [crop; stage; py "farming"; py "best practices"]
                              ++ [py "symptoms"; sym]
                       else [crop; stage; py "farming"; py "best practices"])
                        ++ [py "in"; l]
                 else (if truthy sym
                       then [crop; stage; py "farming"; py "best practices"]
                              ++ [py "symptoms"; sym]
                       else [crop; stage; py "farming"; py "best practices"])
             | None =>
                 if truthy sym
                 then [crop; stage; py "farming"; py "best practices"]
                        ++ [py "symptoms"; sym]
                 else [crop; stage; py "farming"; py "best practices"]
             end
             = [crop; stage] ++ py "farming" :: py "best practices" :: tail).
  { destruct (truthy sym); destruct loc as [l|]; try destruct (truthy l);
      eexists; reflexivity. }
  destruct E as (tail & ->).
  rewrite filter_app.
  change (filter nonblank (py "farming" :: py "best practices" :: tail))
    with (py "farming" :: py "best practices" :: filter nonblank tail).
  change (py "farming best practices")
    with (py "farming" ++ py " " ++ py "best practices").
  apply join_adjacent.
Qed.

(* ------------------------------------------------------------------ *)
(** ** The message history *)

Lemma last_app_nonempty {A} (l k : list A) (d : A) :
  k <> [] -> last (l ++ k) d = last k d.
Proof.
  intros Hk. induction l as [|x l IH]; [reflexivity|].
  simpl. destruct (l ++ k) eqn:E; [|exact IH].
  apply app_eq_nil in E. destruct E as [_ E]. contradiction.
Qed.

Lemma compact_messages_messages (s : GraphState.t) :
  GraphState.messages (GraphState.compact_messages s)
  = skipn (List.length (GraphState.messages s) - 16) (GraphState.messages s).
Proof.
  unfold GraphState.compact_messages, GraphState.compact_messages_to.
  destruct (16 <? List.length (GraphState.messages s)) eqn:E; [reflexivity|].
  apply Nat.ltb_ge in E.
  replace (List.length (GraphState.messages s) - 16) with 0 by lia. reflexivity.
Qed.

Lemma compact_messages_last (s : GraphState.t) (d : message) :
  last (GraphState.messages (GraphState.compact_messages s)) d
  = last (GraphState.messages s) d.
Proof.
  rewrite compact_messages_messages.
  set (l := GraphState.messages s). set (n := List.length l - 16).
  destruct (skipn n l) eqn:E.
  - assert (Hlen : List.length (skipn n l) = 0) by now rewrite E.
    rewrite length_skipn in Hlen. subst n.
    destruct l as [|m l']; [reflexivity|].
    change (List.length (m :: l')) with (S (List.length l')) in Hlen. lia.
  - rewrite <- E. rewrite <- (firstn_skipn n l) at 2.
    symmetry. apply last_app_nonempty. rewrite E. discriminate.
Qed.

(** X12. [compact_messages] keeps the most recent messages, in order, and
    as many as there are up to sixteen; it changes no other field, and
    doing it twice is doing it once. *)
Theorem compact_messages_keeps_latest (s : GraphState.t) :
  let s' := GraphState.compact_messages s in
  (exists dropped, GraphState.messages s = dropped ++ GraphState.messages s')
  /\ List.length (GraphState.messages s')
     = Nat.min 16 (List.length (GraphState.messages s))
  /\ GraphState.with_messages s (GraphState.messages s') = s'
  /\ GraphState.compact_messages s' = s'.
Proof.
  cbv zeta. split; [apply compact_messages_suffix|].
  assert (Hlen : List.length (GraphState.messages (GraphState.compact_messages s))
                 = Nat.min 16 (List.length (GraphState.messages s))).
  { rewrite compact_messages_messages, length_skipn. lia. }
  split; [exact Hlen|]. split.
  - unfold GraphState.compact_messages, GraphState.compact_messages_to.
    destruct (16 <? List.length (GraphState.messages s)); [reflexivity|].
    now destruct s.
  - unfold GraphState.compact_messages at 1, GraphState.compact_messages_to.
    assert (E : (16 <? List.length
                         (GraphState.messages (GraphState.compact_messages s))) = false)
      by (apply Nat.ltb_ge; lia).
    now rewrite E.
Qed.

(** X13. The reply of [ask_node] is the last message of the history it
    returns, whatever was cut; the history has at most sixteen messages,
    and the node clears the advisory and nothing else of the session's
    memory. *)
Theorem ask_node_reply_last (st : GraphState.t) :
  let st' := apply_out st (ask_node st) in
  last (GraphState.messages st') no_message
  = mk_message (py "assistant") (_ask_message_for_missing st)
  /\ List.length (GraphState.messages st') <= 16
  /\ GraphState.advisory st' = None
  /\ GraphState.context st' = GraphState.context st
  /\ GraphState.observation st' = GraphState.observation st
  /\ GraphState.weather st' = GraphState.weather st
  /\ GraphState.web st' = GraphState.web st.
Proof.
  cbv zeta. split; [|split; [apply ask_node_messages | repeat split]].
  unfold ask_node, apply_out.
  cbn [NodeOut.messages Advisory.or_default GraphState.messages].
  rewrite compact_messages_last. unfold GraphState.add_assistant.
  cbn [GraphState.with_messages GraphState.messages GraphState.with_last_node].
  rewrite last_last. reflexivity.
Qed.

(** X14. [advice_node] on both of its paths.  When the model reply
    validates, the advisory stored is the sanitized one and the last
    message is its summary; when the call or the validation fails, the
    advisory is cleared and the fallback text is added at the end of the
    history as it stood. *)
Theorem advice_node_outcome (reply : res Advisory.raw) (st : GraphState.t) :
  let st' := apply_out st (advice_node reply st) in
  match bind reply safe_parse_advisory with
  | Ok a =>
      let adv2 := _sanitize_advisory a (_guardrails a st) in
      GraphState.advisory st' = Some adv2
      /\ last (GraphState.messages st') no_message
         = mk_message (py "assistant") (summary_text adv2)
      /\ List.length (GraphState.messages st') <= 16
  | Raise _ =>
      GraphState.advisory st' = None
      /\ GraphState.messages st'
         = GraphState.messages st ++ [mk_message (py "assistant") advice_fallback]
  end.
Proof.
  cbv zeta. unfold advice_node.
  destruct (bind reply safe_parse_advisory) as [a|e].
  - unfold apply_out.
    cbn [NodeOut.messages NodeOut.advisory Advisory.or_default
         GraphState.messages GraphState.advisory].
    split; [reflexivity|]. split; [|apply compact_messages_length].
    rewrite compact_messages_last. unfold GraphState.add_assistant.
    cbn [GraphState.with_messages GraphState.messages GraphState.with_last_node].
    rewrite last_last. reflexivity.
  - split; reflexivity.
Qed.

(* ------------------------------------------------------------------ *)
(** ** Pulling the JSON object out of a model reply *)

Lemma chr_eqb_eq (a b : ascii) : chr_eqb a b = true -> a = b.
Proof.
  unfold chr_eqb, cp. intros H. apply N.eqb_eq in H.
  rewrite <- (ascii_N_embedding a), <- (ascii_N_embedding b). now rewrite H.
Qed.

Lemma from_first_spec (c : ascii) (s r : str) :
  from_first c s = Some r ->
  startswith_chr c r = true /\ exists pre, s = pre ++ r.
Proof.
  induction s as [|d s IH]; [discriminate|].
  cbn [from_first]. destruct (chr_eqb d c) eqn:E.
  - intros [= <-]. split; [exact E | now exists []].
  - intros H. destruct (IH H) as (Hs & pre & ->).
    split; [exact Hs | now exists (d :: pre)].
Qed.

Lemma upto_last_spec (c : ascii) (s r : str) :
  upto_last c s = Some r ->
  endswith_chr c r = true /\ exists post, s = r ++ post.
Proof.
  unfold upto_last, endswith_chr.
  destruct (from_first c (rev s)) as [r'|] eqn:E; [|discriminate].
  intros [= <-]. destruct (from_first_spec _ _ _ E) as (Hs & pre & Hpre).
  rewrite rev_involutive. split; [exact Hs|].
  exists (rev pre). rewrite <- rev_app_distr, <- Hpre. symmetry. apply rev_involutive.
Qed.

Lemma lstrip_suffix (s : str) : exists pre, s = pre ++ lstrip s.
Proof.
  induction s as [|c s (pre & IH)]; [now exists []|].
  simpl. destruct (isspace c); [|now exists []].
  exists (c :: pre). simpl. now rewrite <- IH.
Qed.

Lemma strip_part (s : str) : exists pre post, s = pre ++ strip s ++ post.
Proof.
  unfold strip, rstrip.
  destruct (lstrip_suffix s) as (pre & Hpre).
  destruct (lstrip_suffix (rev (lstrip s))) as (post & Hpost).
  exists pre, (rev post). rewrite <- rev_app_distr, <- Hpost, rev_involutive.
  exact Hpre.
Qed.

Lemma startswith_brace_no_lead (c : ascii) (s : str) :
  isspace c = false -> startswith_chr c s = true -> no_lead s.
Proof.
  intros Hc. destruct s as [|d s]; simpl; [discriminate|].
  intros H. apply chr_eqb_eq in H. now subst.
Qed.

Lemma braced_strip (j : str) :
  startswith_chr "{" j = true -> endswith_chr "}" j = true -> strip j = j.
Proof.
  intros Hs He. unfold strip.
  rewrite (lstrip_fixed j) by now apply (startswith_brace_no_lead "{").
  unfold rstrip. rewrite lstrip_fixed; [apply rev_involutive|].
  now apply (startswith_brace_no_lead "}").
Qed.

Lemma startswith_prefix (c : ascii) (r s post : str) :
  s = r ++ post -> r <> [] -> startswith_chr c s = true -> startswith_chr c r = true.
Proof. intros -> Hr. destruct r; [contradiction | exact (fun H => H)]. Qed.

(** X15. What [_extract_json_object] returns, when it returns something, is
    a piece of the reply that begins with an opening and ends with a
    closing brace, and a piece that the function, given it again, returns
    as it is. *)
Theorem extract_json_object_braced (text j : str) :
  _extract_json_object text = Some j ->
  startswith_chr "{" j = true
  /\ endswith_chr "}" j = true
  /\ (exists pre post, text = pre ++ j ++ post)
  /\ _extract_json_object j = Some j.
Proof.
  unfold _extract_json_object at 1.
  destruct (negb (truthy text)); [discriminate|]. cbv zeta.
  destruct (strip_part text) as (p1 & p2 & Htext).
  assert (Hmain : startswith_chr "{" j = true /\ endswith_chr "}" j = true
                  /\ (exists pre post, strip text = pre ++ j ++ post) ->
                  startswith_chr "{" j = true /\ endswith_chr "}" j = true
                  /\ (exists pre post, text = pre ++ j ++ post)
                  /\ _extract_json_object j = Some j).
  { intros (Hs & He & pre & post & Hj). split; [exact Hs|]. split; [exact He|]. split.
    - exists (p1 ++ pre), (post ++ p2). rewrite Htext at 1. rewrite Hj.
      now rewrite <- !app_assoc.
    - unfold _extract_json_object.
      destruct j as [|c j']; [discriminate Hs|].
      cbn [truthy negb]. cbv zeta. rewrite (braced_strip _ Hs He).
      now rewrite Hs, He. }
  destruct (startswith_chr "{" (strip text) && endswith_chr "}" (strip text)) eqn:E.
  - intros [= <-]. apply andb_true_iff in E. destruct E as [Hs He].
    apply Hmain. split; [exact Hs|]. split; [exact He|].
    exists [], []. now rewrite app_nil_r.
  - unfold search_json_obj.
    destruct (from_first "{" (strip text)) as [s|] eqn:Ef; [|discriminate].
    intros Hu. destruct (from_first_spec _ _ _ Ef) as (Hs & pre & Hpre).
    destruct (upto_last_spec _ _ _ Hu) as (He & post & Hpost).
    apply Hmain. split; [|split; [exact He|]].
    + apply (startswith_prefix _ j s post Hpost); [|exact Hs].
      intros ->. discriminate He.
    + exists pre, post. now rewrite Hpre, Hpost.
Qed.

Lemma extract_json_object_braced_witness :
  _extract_json_object chatty_reply
  = Some (py "{'crop': 'wheat', 'stage': {}} Hope it helps }")
  /\ _extract_json_object (py "{'crop': 'wheat', 'stage': {}} Hope it helps }")
     = Some (py "{'crop': 'wheat', 'stage': {}} Hope it helps }").
Proof.
  split; [vm_compute; reflexivity|].
  apply (extract_json_object_braced chatty_reply). vm_compute. reflexivity.
Defined.

(* ------------------------------------------------------------------ *)
(** ** Intake *)

Section IntakeProps.

Variable extract_lat_lon : str -> option Q * option Q.
Variable reply : res IntakeExtraction.t.

Lemma float_or_kept (a b : option Q) : float_truthy a = true -> float_or a b = a.
Proof. unfold float_or. now intros ->. Qed.

Lemma intake_context_coords (st : GraphState.t) (c : FarmerContext.t) :
  intake_context extract_lat_lon st = Ok c ->
  (float_truthy (FarmerContext.lat (GraphState.context st)) = true ->
   FarmerContext.lat c = FarmerContext.lat (GraphState.context st))
  /\ (float_truthy (FarmerContext.lon (GraphState.context st)) = true ->
      FarmerContext.lon c = FarmerContext.lon (GraphState.context st)).
Proof.
  unfold intake_context, FarmerContext.model_validate. cbv zeta.
  destruct (extract_lat_lon _) as [[la|] [lo|]];
    match goal with
    | |- context [if ?b then FarmerContext.with_location_text _ _ else _] =>
        destruct b
    end;
    match goal with |- context [FarmerContext.valid ?x] =>
      destruct (FarmerContext.valid x) end;
    try discriminate; intros [= <-];
    cbn [FarmerContext.with_location_text FarmerContext.with_lat_lon
         FarmerContext.lat FarmerContext.lon];
    split; intros H; try reflexivity; now apply float_or_kept.
Qed.

Lemma merge_context_coords (old new : FarmerContext.t) (upd : IntakeExtraction.t) :
  _merge_context old upd = Ok new ->
  FarmerContext.lat new = FarmerContext.lat old
  /\ FarmerContext.lon new = FarmerContext.lon old.
Proof.
  unfold _merge_context, FarmerContext.model_validate.
  match goal with |- context [FarmerContext.valid ?x] =>
    destruct (FarmerContext.valid x) end; [|discriminate].
  intros [= <-]. split; reflexivity.
Qed.

(** X16. [intake_node] never replaces a coordinate that is already known
    and non-zero, whatever the message holds and whatever the extraction
    returns; it leaves messages, weather, web context and advisory alone;
    and when the extraction call fails it leaves the observation as it
    was. *)
Theorem intake_node_keeps (st : GraphState.t) (out : NodeOut.t) :
  intake_node extract_lat_lon reply st = Ok out ->
  let st' := apply_out st out in
  (float_truthy (FarmerContext.lat (GraphState.context st)) = true ->
   FarmerContext.lat (GraphState.context st')
   = FarmerContext.lat (GraphState.context st))
  /\ (float_truthy (FarmerContext.lon (GraphState.context st)) = true ->
      FarmerContext.lon (GraphState.context st')
      = FarmerContext.lon (GraphState.context st))
  /\ same_memory st st'
  /\ ((exists e, reply = Raise e) ->
      GraphState.observation st' = GraphState.observation st).
Proof.
  unfold intake_node. cbv zeta.
  destruct (intake_context extract_lat_lon
              (GraphState.with_last_node st (Some (py "intake")))) as [c|e] eqn:Ec;
    [|discriminate]. cbn [bind].
  apply intake_context_coords in Ec.
  cbn [GraphState.with_last_node GraphState.context] in Ec.
  destruct Ec as [Hlat Hlon].
  destruct reply as [upd|e].
  - destruct (_merge_context c upd) as [new|e] eqn:Em; [|discriminate]. cbn [bind].
    apply merge_context_coords in Em. destruct Em as [El Eo].
    intros [= <-]. unfold apply_out, same_memory.
    cbn [NodeOut.context NodeOut.messages NodeOut.weather NodeOut.web
         NodeOut.advisory NodeOut.observation Advisory.or_default
         GraphState.context GraphState.messages GraphState.weather GraphState.web
         GraphState.advisory GraphState.chat_id GraphState.turn_count
         GraphState.observation].
    split; [intros H; rewrite El; now apply Hlat|].
    split; [intros H; rewrite Eo; now apply Hlon|].
    split; [repeat split|]. intros (e' & He'). discriminate He'.
  - intros [= <-]. unfold apply_out, same_memory.
    cbn [NodeOut.context NodeOut.messages NodeOut.weather NodeOut.web
         NodeOut.advisory NodeOut.observation Advisory.or_default
         GraphState.context GraphState.messages GraphState.weather GraphState.web
         GraphState.advisory GraphState.chat_id GraphState.turn_count
         GraphState.observation GraphState.with_last_node].
    split; [exact Hlat|]. split; [exact Hlon|]. split; [repeat split|].
    intros _. reflexivity.
Qed.

End IntakeProps.

Lemma intake_node_keeps_witness :
  exists out,
    intake_node mumbai_extractor (Raise OtherError) (mumbai_state None) = Ok out
    /\ FarmerContext.lat (GraphState.context (apply_out (mumbai_state None) out))
       = Some (1907 # 100)%Q
    /\ GraphState.observation (apply_out (mumbai_state None) out)
       = GraphState.observation (mumbai_state None).
Proof.
  eexists. split; [vm_compute; reflexivity|].
  pose proof (intake_node_keeps mumbai_extractor (Raise OtherError)
                (mumbai_state None) _ eq_refl) as H.
  cbv zeta in H. destruct H as (Hlat & _ & _ & Hobs).
  split; [apply Hlat; reflexivity | apply Hobs; now exists OtherError].
Defined.

(* ------------------------------------------------------------------ *)
(** ** Fresh tool results are reused *)

(** X17. With a weather snapshot whose timestamp parses to an aware time at
    most six hours before the clock reading, the router never chooses the
    weather node; the snapshot is reused up to and including the sixth
    hour. *)
Theorem fresh_weather_not_refetched (fromisoformat : str -> option datetime)
  (nw nb t : Z) (st : GraphState.t) (w : WeatherSnapshot.t) (step : Step) :
  GraphState.weather st = Some w ->
  fromisoformat (WeatherSnapshot.fetched_at_utc w) = Some (Aware t) ->
  (nw - t <= hours_us 6)%Z ->
  _route fromisoformat nw nb st = Ok step ->
  step <> WEATHER.
Proof.
  intros Hw Hp Hage. rewrite route_unfold. cbv zeta.
  assert (Hs : _is_weather_stale fromisoformat nw st = Ok false).
  { unfold _is_weather_stale, stale_at, _parse_iso_dt. rewrite Hw. cbn [option_map].
    rewrite Hp. unfold older_than. f_equal. apply Z.ltb_ge. exact Hage. }
  rewrite Hs.
  destruct (negb (coords_truthy _) && negb (given _)); [now intros [= <-]|].
  destruct (negb (given (FarmerContext.crop _))); [now intros [= <-]|].
  destruct (CropStage_eqb _ unknown); [now intros [= <-]|].
  destruct (coords_truthy _); cbn [bind];
    destruct (truthy _); try (now intros [= <-]);
    destruct (_is_web_stale fromisoformat nb st) as [[]|]; cbn [bind];
    try discriminate; now intros [= <-].
Qed.

Lemma fresh_weather_not_refetched_witness :
  _route (fun _ => Some (Aware 0)) (hours_us 6) 0 (mumbai_state (Some old_snapshot))
  = Ok ADVICE
  /\ ADVICE <> WEATHER.
Proof.
  split; [reflexivity|].
  apply (fresh_weather_not_refetched (fun _ => Some (Aware 0)) (hours_us 6) 0 0
           (mumbai_state (Some old_snapshot)) old_snapshot ADVICE);
    [reflexivity | reflexivity | unfold hours_us; lia | reflexivity].
Defined.

(* ------------------------------------------------------------------ *)
(** ** What sanitizing leaves of a flagged advisory *)

Lemma firstn_app_short {A} (n : nat) (l k : list A) (x : A) :
  List.length l < n -> In x (firstn n ((l ++ [x]) ++ k)).
Proof.
  intros H. rewrite <- app_assoc, firstn_app. apply in_or_app.
  destruct (n - List.length l) as [|m] eqn:E; [lia|].
  right. simpl. now left.
Qed.

Lemma firstn_app_full {A} (n : nat) (l k : list A) :
  n <= List.length l -> firstn n (l ++ k) = firstn n l.
Proof.
  intros H. rewrite firstn_app.
  replace (n - List.length l) with 0 by lia. now rewrite firstn_O, app_nil_r.
Qed.

(** X18. For a verdict that escalates, the sanitized advisory has between
    one and seven actions, each an action of the original or the fallback
    action; it is flagged for review with low confidence; headline, stage,
    watch items, questions and rationale are the original ones; the safety
    notes number at most six and begin with the original notes.  The
    disclaimer is among them when the original had fewer than six notes,
    and none of what the sanitizer adds is kept when it had six or more. *)
Theorem sanitize_flagged_result (a : Advisory.t) (g : GuardrailResult.t) :
  GuardrailResult.needs_human_review g = true ->
  let s := _sanitize_advisory a g in
  1 <= List.length (Advisory.actions_now s) <= 7
  /\ (forall x, In x (Advisory.actions_now s) ->
                In x (Advisory.actions_now a) \/ x = fallback_action)
  /\ Advisory.needs_human_review s = true
  /\ Advisory.confidence s = low
  /\ Advisory.headline s = Advisory.headline a
  /\ Advisory.stage s = Advisory.stage a
  /\ Advisory.watch_out_for s = Advisory.watch_out_for a
  /\ Advisory.next_questions s = Advisory.next_questions a
  /\ Advisory.rationale_brief s = Advisory.rationale_brief a
  /\ List.length (Advisory.safety_notes s) <= 6
  /\ firstn (List.length (Advisory.safety_notes a)) (Advisory.safety_notes s)
     = firstn 6 (Advisory.safety_notes a)
  /\ (List.length (Advisory.safety_notes a) < 6 ->
      In disclaimer (Advisory.safety_notes s))
  /\ (6 <= List.length (Advisory.safety_notes a) ->
      Advisory.safety_notes s = firstn 6 (Advisory.safety_notes a)).
Proof.
  intros Hg. cbv zeta. rewrite (sanitize_flagged a g Hg).
  cbn [Advisory.with_sanitized Advisory.actions_now Advisory.needs_human_review
       Advisory.confidence Advisory.headline Advisory.stage Advisory.watch_out_for
       Advisory.next_questions Advisory.rationale_brief Advisory.safety_notes].
  split.
  { split; [|apply firstn_le_length].
    pose proof (safe_actions_of_nonempty (Advisory.actions_now a)) as Hne.
    destruct (safe_actions_of (Advisory.actions_now a)); [contradiction|].
    simpl. lia. }
  split.
  { intros x Hx. apply In_firstn in Hx. unfold safe_actions_of in Hx.
    destruct (List.length (filter _ (Advisory.actions_now a)) =? 0).
    - destruct Hx as [<-|[]]. now right.
    - apply filter_In in Hx. now left. }
  do 7 (split; [reflexivity|]).
  split; [apply firstn_le_length|].
  split.
  { rewrite firstn_firstn, <- app_assoc, firstn_app.
    destruct (Nat.le_ge_cases (List.length (Advisory.safety_notes a)) 6) as [H|H].
    - rewrite Nat.min_l by exact H.
      rewrite Nat.sub_diag, firstn_all, firstn_O, app_nil_r.
      symmetry. now apply firstn_all2.
    - rewrite Nat.min_r by exact H.
      replace (6 - List.length (Advisory.safety_notes a)) with 0 by lia.
      now rewrite firstn_O, app_nil_r. }
  split.
  - intros H. now apply firstn_app_short.
  - intros H. rewrite <- app_assoc. now apply firstn_app_full.
Qed.

Lemma sanitize_flagged_result_witness :
  Advisory.safety_notes
    (_sanitize_advisory six_notes_advisory
       (_guardrails six_notes_advisory urgent_state))
  = firstn 6 (Advisory.safety_notes six_notes_advisory).
Proof.
  pose proof (sanitize_flagged_result six_notes_advisory
                (_guardrails six_notes_advisory urgent_state)) as H.
  cbv zeta in H. apply H.
  - vm_compute. reflexivity.
  - vm_compute. lia.
Defined.

(* ------------------------------------------------------------------ *)
(** ** Stage names *)

Lemma literal_of_CropStage_inv (s : str) (st : CropStage) :
  literal_of CropStage_table s = Some st -> s = CropStage_name st.
Proof.
  unfold CropStage_table. cbn [literal_of].
  repeat match goal with
         | |- context [str_eqb s ?n] =>
             let E := fresh "E" in
             destruct (str_eqb s n) eqn:E;
             [apply str_eqb_eq in E; intros [= <-]; exact E | clear E]
         end.
  discriminate.
Qed.

(** X19. A non-blank stage in an update sets the stage to the member whose
    name it spells, in any letter case and with any white space around it,
    and to unknown when it spells no member's name. *)
Theorem merge_context_stage (old new : FarmerContext.t) (upd : IntakeExtraction.t)
  (v : str) :
  IntakeExtraction.stage upd = Some v ->
  blank v = false ->
  _merge_context old upd = Ok new ->
  (forall st, lower (strip v) = CropStage_name st -> FarmerContext.stage new = st)
  /\ ((forall st, lower (strip v) <> CropStage_name st) ->
      FarmerContext.stage new = unknown).
Proof.
  intros Hv Hb. unfold _merge_context, FarmerContext.model_validate.
  match goal with |- context [FarmerContext.valid ?x] =>
    destruct (FarmerContext.valid x) end; [|discriminate].
  intros [= <-]. cbn [FarmerContext.stage]. rewrite Hv. unfold overwrite.
  rewrite nonblank_blank, Hb. cbn [negb]. unfold allowed_stage. split.
  - intros st ->. now rewrite literal_of_CropStage_name.
  - intros H. destruct (literal_of CropStage_table (lower (strip v))) as [st|] eqn:E;
      [|reflexivity].
    apply literal_of_CropStage_inv in E. now contradiction (H st).
Qed.

Lemma merge_context_stage_witness :
  exists new, _merge_context nagpur_context shouted_stage_update = Ok new
              /\ FarmerContext.stage new = post_harvest.
Proof.
  eexists. split; [vm_compute; reflexivity|].
  refine (proj1 (merge_context_stage nagpur_context _ shouted_stage_update
                   (py "  Post_Harvest ") eq_refl eq_refl _) post_harvest eq_refl).
  vm_compute. reflexivity.
Defined.

(* ------------------------------------------------------------------ *)
(** ** Entering a turn *)

(** X20. [run_turn], before it starts the graph: the user's text is the
    last message, the history has at most sixteen messages, the turn
    counter is one higher, and nothing else of the session has changed. *)
Theorem run_turn_enter_state (state : GraphState.t) (user_text : str) :
  let s := run_turn_enter state user_text in
  last (GraphState.messages s) no_message = mk_message (py "user") user_text
  /\ List.length (GraphState.messages s) <= 16
  /\ (exists dropped,
        GraphState.messages state ++ [mk_message (py "user") user_text]
        = dropped ++ GraphState.messages s)
  /\ GraphState.turn_count s = (GraphState.turn_count state + 1)%Z
  /\ GraphState.chat_id s = GraphState.chat_id state
  /\ GraphState.context s = GraphState.context state
  /\ GraphState.observation s = GraphState.observation state
  /\ GraphState.weather s = GraphState.weather state
  /\ GraphState.web s = GraphState.web state
  /\ GraphState.advisory s = GraphState.advisory state
  /\ GraphState.last_node s = GraphState.last_node state.
Proof.
  cbv zeta. unfold run_turn_enter. cbv zeta.
  set (s1 := GraphState.with_turn_count _ _).
  split.
  { rewrite compact_messages_last. subst s1. unfold GraphState.add_user.
    cbn [GraphState.with_turn_count GraphState.with_messages GraphState.messages].
    apply last_last. }
  split; [apply compact_messages_length|].
  split; [exact (compact_messages_suffix s1)|].
  unfold GraphState.compact_messages, GraphState.compact_messages_to.
  destruct (16 <? List.length (GraphState.messages s1)); repeat split.
Qed.

(* ------------------------------------------------------------------ *)
(** ** A whole turn *)

Lemma apply_out_fixed (s : GraphState.t) (out : NodeOut.t) :
  GraphState.chat_id (apply_out s out) = GraphState.chat_id s
  /\ GraphState.turn_count (apply_out s out) = GraphState.turn_count s.
Proof. split; reflexivity. Qed.

Lemma compact_messages_last_node (s : GraphState.t) :
  GraphState.last_node (GraphState.compact_messages s) = GraphState.last_node s.
Proof.
  unfold GraphState.compact_messages, GraphState.compact_messages_to.
  now destruct (16 <? _).
Qed.

Lemma ask_node_ends (s : GraphState.t) :
  ended_at (apply_out s (ask_node s))
  /\ assistant_spoke_last (apply_out s (ask_node s)).
Proof.
  split; [left; unfold ask_node, apply_out;
          cbn [NodeOut.last_node Advisory.or_default GraphState.last_node];
          now rewrite compact_messages_last_node|].
  unfold assistant_spoke_last, ask_node, apply_out.
  cbn [NodeOut.messages Advisory.or_default GraphState.messages].
  rewrite compact_messages_last. unfold GraphState.add_assistant.
  cbn [GraphState.with_messages GraphState.messages GraphState.with_last_node].
  now rewrite last_last.
Qed.

Lemma advice_node_ends (reply : res Advisory.raw) (s : GraphState.t) :
  ended_at (apply_out s (advice_node reply s))
  /\ assistant_spoke_last (apply_out s (advice_node reply s)).
Proof.
  unfold advice_node, assistant_spoke_last.
  destruct (bind reply safe_parse_advisory) as [a|e].
  - split; [right; unfold apply_out;
            cbn [NodeOut.last_node Advisory.or_default GraphState.last_node];
            now rewrite compact_messages_last_node|].
    unfold apply_out.
    cbn [NodeOut.messages Advisory.or_default GraphState.messages].
    rewrite compact_messages_last. unfold GraphState.add_assistant.
    cbn [GraphState.with_messages GraphState.messages GraphState.with_last_node].
    now rewrite last_last.
  - split; [right; reflexivity|]. unfold apply_out, GraphState.add_assistant.
    cbn [NodeOut.messages Advisory.or_default GraphState.messages
         GraphState.with_messages GraphState.with_last_node].
    now rewrite last_last.
Qed.

Lemma plan_loop_ends (env : Env.t) (limit : nat) :
  forall k s s',
    plan_loop env limit k s = Ok s' ->
    ended_at s' /\ assistant_spoke_last s'
    /\ GraphState.chat_id s' = GraphState.chat_id s
    /\ GraphState.turn_count s' = GraphState.turn_count s.
Proof.
  induction limit as [|limit IH]; intros k s s'; [discriminate|].
  cbn [plan_loop]. cbv zeta.
  destruct (_route _ _ _ _) as [[]|]; cbn [bind]; try discriminate.
  - intros [= <-]. destruct (ask_node_ends (apply_out s (plan_node s))) as [H1 H2].
    repeat split; assumption.
  - destruct (weather_node _ _ _) as [out|]; cbn [bind]; [|discriminate].
    intros H. apply IH in H. destruct H as (H1 & H2 & H3 & H4).
    repeat split; assumption.
  - destruct (web_node _ _) as [out|]; cbn [bind]; [|discriminate].
    intros H. apply IH in H. destruct H as (H1 & H2 & H3 & H4).
    repeat split; assumption.
  - intros [= <-].
    destruct (advice_node_ends (Env.advice_reply env) (apply_out s (plan_node s)))
      as [H1 H2].
    repeat split; assumption.
Qed.

(** X21. A turn that returns has ended at the ask or the advice node, with
    a message of the assistant as the last of the history; the session
    keeps its identifier and its turn counter is one higher than before. *)
Theorem run_turn_replies (env : Env.t) (limit : nat) (state s' : GraphState.t)
  (user_text : str) :
  run_turn env limit state user_text = Ok s' ->
  ended_at s' /\ assistant_spoke_last s'
  /\ GraphState.chat_id s' = GraphState.chat_id state
  /\ GraphState.turn_count s' = (GraphState.turn_count state + 1)%Z.
Proof.
  unfold run_turn, run_graph.
  destruct (intake_node _ _ _) as [out|]; cbn [bind]; [|discriminate].
  intros H. apply plan_loop_ends in H. destruct H as (H1 & H2 & H3 & H4).
  split; [exact H1|]. split; [exact H2|]. split.
  - rewrite H3. unfold run_turn_enter, GraphState.compact_messages,
      GraphState.compact_messages_to. cbv zeta.
    now destruct (16 <? _).
  - rewrite H4. unfold run_turn_enter, GraphState.compact_messages,
      GraphState.compact_messages_to. cbv zeta.
    now destruct (16 <? _).
Qed.

Lemma run_turn_replies_witness :
  exists s', run_turn all_down 1 (GraphState.fresh (py "42")) (py "hello") = Ok s'
             /\ ended_at s' /\ assistant_spoke_last s'
             /\ GraphState.chat_id s' = py "42"
             /\ GraphState.turn_count s' = 1%Z.
Proof.
  eexists. split; [vm_compute; reflexivity|].
  apply (run_turn_replies all_down 1 (GraphState.fresh (py "42")) _ (py "hello")).
  vm_compute. reflexivity.
Defined.

(** X22. If the router chooses the weather node on some pass, the weather
    tool fails on that and every later pass, and the clock does not run
    backwards, then no recursion limit is large enough: the run from that
    pass on ends in the runtime's error, however many passes it is given,
    and never reaches ask or advice. *)
Theorem weather_outage_never_ends (env : Env.t) (limit : nat) :
  forall k s,
    _route (Env.fromisoformat env) (Env.clock_weather env k) (Env.clock_web env k) s
    = Ok WEATHER ->
    (forall j la lo, k <= j -> Env.weather env j la lo = Raise ToolError) ->
    (forall j, k <= j -> (Env.clock_weather env j <= Env.clock_weather env (S j))%Z) ->
    plan_loop env limit k s = Raise OtherError.
Proof.
  induction limit as [|limit IH]; intros k s Hr Hw Hclock; [reflexivity|].
  cbn [plan_loop]. cbv zeta.
  change (apply_out s (plan_node s))
    with (GraphState.with_last_node s (Some (py "plan"))).
  rewrite route_last_node, Hr. cbn [bind].
  rewrite <- (route_last_node _ _ _ s (Some (py "plan"))) in Hr.
  destruct (route_weather_inv _ _ _ _ Hr) as (Hg & Hc & Hs).
  destruct (weather_node_failed (Env.geocode env k) (Env.weather env k) _ Hc
              (fun la lo => Hw k la lo (le_n k))) as (out & Hout & Est).
  rewrite Hout. cbn [bind]. rewrite Est. apply IH.
  - rewrite !route_last_node, route_unfold. cbv zeta.
    cbn [GraphState.with_last_node GraphState.context] in Hg, Hc.
    apply gates_open in Hg. destruct Hg as (-> & -> & ->). rewrite Hc. cbn [bind].
    unfold _is_weather_stale in *.
    cbn [GraphState.with_last_node GraphState.weather] in Hs.
    now rewrite (stale_at_later _ _ _ _ _ Hs (Hclock k (le_n k))).
  - intros j la lo Hj. apply Hw. lia.
  - intros j Hj. apply Hclock. lia.
Qed.

Lemma weather_outage_never_ends_witness :
  plan_loop all_down 25 0 (mumbai_state None) = Raise OtherError.
Proof.
  apply (weather_outage_never_ends all_down 25 0 (mumbai_state None)).
  - reflexivity.
  - reflexivity.
  - intros j _. cbn. lia.
Defined.
